(** * esp32-dht11-server: the DHT11 single-wire decoder of
    [main/esp32_dht11_iot.c]

    The C file drives one GPIO line: [startSignal] performs the host
    handshake, [readData] samples eight bits, [getData] assembles five
    bytes into a [struct data], and [get_handler] renders the record.
    Its Wi-Fi [event_handler] keeps the retry counter [s_retry_num].

    The pin and the microsecond delay are the only collaborators.  They
    are modelled by a [world] (clock in microseconds, pin direction,
    driven level, and the history of pin operations) together with a
    [line : N -> bool], the level the wire carries at each microsecond
    while the pin is an input.  A delay advances the clock by its
    argument and a read of the pin by [tpoll] microseconds; setting the
    direction or the level takes no time.  The busy-wait loops of the
    source have no exit other than a level change, so each one is given
    an iteration budget ([fuel]); running out of budget is the outcome
    [Spinning], which stands for "still inside the loop". *)

From Stdlib Require Import ZArith NArith List Lia Bool String Ascii Arith.
From Stdlib Require DecimalString.
Import ListNotations.

(** ** The pin and the clock *)

Inductive gpio_mode_t := GPIO_MODE_INPUT | GPIO_MODE_OUTPUT.

(** One entry per call made on the pin, oldest first. *)
Inductive pin_op :=
| PadSelect
| SetDirection (m : gpio_mode_t)
| SetLevel (l : bool)
| DelayUs (us : N)
| GetLevel (l : bool).

Record world := mkWorld {
  now : N;
  direction : gpio_mode_t;
  driven : bool;
  trace : list pin_op
}.

(** A call either returns a value in a new world, or is still spinning
    in a wait loop when the budget ends. *)
Inductive outcome (A : Type) :=
| Returned (a : A) (w : world)
| Spinning (w : world).

Arguments Returned {A} a w.
Arguments Spinning {A} w.

Definition M (A : Type) := world -> outcome A.

Definition ret {A} (a : A) : M A := fun w => Returned a w.

Definition bind {A B} (m : M A) (k : A -> M B) : M B :=
  fun w => match m w with
           | Returned a w' => k a w'
           | Spinning w' => Spinning w'
           end.

Notation "x <- m ;; k" := (bind m (fun x => k))
  (at level 61, m at next level, right associativity).
Notation "m ;; k" := (bind m (fun _ => k))
  (at level 61, right associativity).

Definition final_world {A} (o : outcome A) : world :=
  match o with
  | Returned _ w => w
  | Spinning w => w
  end.

Definition returns {A} (o : outcome A) : bool :=
  match o with
  | Returned _ _ => true
  | Spinning _ => false
  end.

(** ** The record filled by [getData] *)

(** [struct data { int temperature, humidity, status; }] *)
Record data := mkData {
  temperature : Z;
  humidity : Z;
  status : Z
}.

Section Decoder.

(** Cost of one [gpio_get_level] call, in microseconds. *)
Variable tpoll : N.

(** Level of the wire at each microsecond, as the sensor and the
    pull-up leave it. *)
Variable line : N -> bool.

Definition log (op : pin_op) (w : world) : list pin_op := trace w ++ [op].

Definition gpio_pad_select_gpio : M unit :=
  fun w => Returned tt (mkWorld (now w) (direction w) (driven w) (log PadSelect w)).

Definition gpio_set_direction (m : gpio_mode_t) : M unit :=
  fun w => Returned tt (mkWorld (now w) m (driven w) (log (SetDirection m) w)).

Definition gpio_set_level (l : bool) : M unit :=
  fun w => Returned tt (mkWorld (now w) (direction w) l (log (SetLevel l) w)).

Definition ets_delay_us (us : N) : M unit :=
  fun w => Returned tt (mkWorld (now w + us)%N (direction w) (driven w) (log (DelayUs us) w)).

(** A pad that is not configured as an input reads 0. *)
Definition gpio_get_level : M bool :=
  fun w =>
    let l := match direction w with
             | GPIO_MODE_INPUT => line (now w)
             | GPIO_MODE_OUTPUT => false
             end in
    Returned l (mkWorld (now w + tpoll)%N (direction w) (driven w) (log (GetLevel l) w)).

(** [while (gpio_get_level(PIN) == lvl);] with at most [fuel] polls.
    [while(!gpio_get_level(..));] is [while_level false] and
    [while(gpio_get_level(..));] is [while_level true]. *)
Fixpoint while_level (lvl : bool) (fuel : nat) : M unit :=
  match fuel with
  | O => fun w => Spinning w
  | S fuel' =>
      l <- gpio_get_level ;;
      if Bool.eqb l lvl then while_level lvl fuel' else ret tt
  end.

Variable fuel : nat.

(** [void startSignal(void)] *)
Definition startSignal : M unit :=
  gpio_set_direction GPIO_MODE_OUTPUT ;;
  gpio_set_level false ;;
  ets_delay_us (19 * 1000)%N ;;
  gpio_set_level true ;;
  ets_delay_us 30%N ;;
  gpio_set_direction GPIO_MODE_INPUT ;;
  while_level false fuel ;;
  while_level true fuel.

(** The body of [for(i=0;i<8;i++)] in [readData], with [n] iterations
    left; [sbuf] is a [uint8_t]. *)
Fixpoint readData_loop (n : nat) (sbuf : Z) : M Z :=
  match n with
  | O => ret sbuf
  | S n' =>
      let sbuf1 := (Z.shiftl sbuf 1 mod 256)%Z in
      while_level false fuel ;;
      ets_delay_us 30%N ;;
      l <- gpio_get_level ;;
      let sbuf2 := if l then Z.lor sbuf1 1 else Z.lor sbuf1 0 in
      while_level true fuel ;;
      readData_loop n' sbuf2
  end.

(** [uint8_t readData(void)] *)
Definition readData : M Z := readData_loop 8 0%Z.

(** Lines 208-214 of [getData]: the comparison is made on [int]
    operands (the bytes are promoted), so the sum is not reduced. *)
Definition getData_store (b0 b1 b2 b3 b4 : Z) (temp : data) : data :=
  let temp1 :=
    if (b4 =? b0 + b1 + b2 + b3)%Z
    then mkData (temperature temp) (humidity temp) 0
    else mkData (temperature temp) (humidity temp) 1 in
  let temp2 := mkData b2 (humidity temp1) (status temp1) in
  mkData (temperature temp2) b0 (status temp2).

(** [void getData(struct data *temp)]; the record behind the pointer
    is passed in and the updated record is returned. *)
Definition getData (temp : data) : M data :=
  b0 <- readData ;;
  b1 <- readData ;;
  b2 <- readData ;;
  b3 <- readData ;;
  b4 <- readData ;;
  ret (getData_store b0 b1 b2 b3 b4 temp).

End Decoder.

(** ** The request handler *)

Local Open Scope string_scope.

Definition ESP_OK : Z := 0%Z.

Definition lf : string := String (ascii_of_nat 10) EmptyString.
Definition crlf : string := String (ascii_of_nat 13) lf.

(** [%d] of an [int]. *)
Definition fmt_d (z : Z) : string :=
  DecimalString.NilZero.string_of_int (Z.to_int z).

(** The two [printf] calls of [get_handler]. *)
Definition console_line (d : data) : string :=
  if (status d =? 0)%Z
  then "Temp=" ++ fmt_d (temperature d) ++ ", Humi=" ++ fmt_d (humidity d) ++ crlf
  else "DHT11 Error!" ++ crlf.

(** The [sprintf] into [htmlPage]: the format string with its two [%d]
    and its [%%]. *)
Definition htmlPage (t h : Z) : string :=
  "<<!DOCTYPE html><html>" ++ lf ++
  "<head>" ++ lf ++
  "<style>" ++ lf ++
  "html {font-family: sans-serif; text-align: center;}" ++ lf ++
  "</style>" ++ lf ++
  "</head>" ++ lf ++
  "<body>" ++ lf ++
  "<div>" ++ lf ++
  "<h1>ESP32 IoT Server</h1>" ++ lf ++
  "</div>" ++ lf ++
  "<div>" ++ lf ++
  "<h3>Temperature and Humidity Monitor</h3>" ++ lf ++
  "<p>DHT11 Temperature Reading: " ++ fmt_d t ++ "&deg;C</p>" ++ lf ++
  "<p>DHT11 Humidity Reading: " ++ fmt_d h ++ "%</p>" ++ lf ++
  "</div>" ++ lf ++
  "</body>" ++ lf ++
  "</html> >".

(** What one request leaves behind: the text printed on the console,
    the body handed to [httpd_resp_send], and the returned code. *)
Record handled := mkHandled {
  console : string;
  response : string;
  err : Z
}.

(** [esp_err_t get_handler(httpd_req_t *req)].  [currentData] is the
    content of the uninitialised local [struct data currentData]. *)
Definition get_handler (tpoll : N) (line : N -> bool) (fuel : nat)
    (currentData : data) : M handled :=
  gpio_pad_select_gpio ;;
  startSignal tpoll line fuel ;;
  d <- getData tpoll line fuel currentData ;;
  ret (mkHandled (console_line d) (htmlPage (temperature d) (humidity d)) ESP_OK).

Local Close Scope string_scope.

(** ** Sensor waveforms *)

(** The eight bits of a byte, most significant first. *)
Definition bits_of_byte (v : Z) : list bool :=
  map (fun i => Z.testbit v (Z.of_nat i)) [7; 6; 5; 4; 3; 2; 1; 0].

(** The value a [uint8_t] accumulator holds after the bits were shifted
    in from the right, one at a time. *)
Definition shift_in (bits : list bool) (sbuf : Z) : Z :=
  fold_left (fun acc (b : bool) =>
               Z.lor (Z.shiftl acc 1 mod 256) (if b then 1 else 0))%Z
            bits sbuf.

(** The line holds [lvl] during the [len] microseconds from [a]. *)
Definition steadyb (line : N -> bool) (lvl : bool) (a : N) (len : nat) : bool :=
  forallb (fun k => Bool.eqb (line (a + N.of_nat k)%N) lvl) (seq 0 len).

(** From [t0] the line carries [bits] in the DHT11 format: before each
    bit a 50 us low gap, then a high pulse of 26..28 us for a 0 and of
    70 us for a 1; after the last bit the line is low for 50 us. *)
Fixpoint encodesb (line : N -> bool) (t0 : N) (bits : list bool) : bool :=
  match bits with
  | [] => steadyb line false t0 50
  | b :: rest =>
      steadyb line false t0 50 &&
      existsb (fun h => steadyb line true (t0 + 50)%N h &&
                        encodesb line (t0 + 50 + N.of_nat h)%N rest)
              (if b then [70] else [26; 27; 28])
  end.

(** A piecewise-constant line: each segment is a duration and a level;
    [idle] is the level once the segments are over. *)
Fixpoint wave (segs : list (N * bool)) (idle : bool) (t : N) : bool :=
  match segs with
  | [] => idle
  | (len, lvl) :: rest =>
      if (t <? len)%N then lvl else wave rest idle (t - len)%N
  end.

Definition bit_pulses (b : bool) : list (N * bool) :=
  [(50, false); (if b then 70 else 26, true)]%N.

Definition byte_pulses (v : Z) : list (N * bool) :=
  flat_map bit_pulses (bits_of_byte v).

Definition frame_pulses (bytes : list Z) : list (N * bool) :=
  flat_map byte_pulses bytes ++ [(50, false)]%N.

(** What the sensor answers to a start signal that begins at time 0:
    the line is pulled up until the sensor takes it low 20 us after the
    host released it, 80 us low, 80 us high, then the frame. *)
Definition sensor_answer (bytes : list Z) : N -> bool :=
  wave ((19020, true) :: (80, false) :: (80, true) :: frame_pulses bytes)%N true.

(** A pin already switched to input, at time [t]. *)
Definition listening (t : N) : world := mkWorld t GPIO_MODE_INPUT true [].

(** The world before any request. *)
Definition power_on : world := mkWorld 0%N GPIO_MODE_INPUT false [].

(** [k] calls of [readData] in a row, first result first. *)
Fixpoint readBytes (tpoll : N) (line : N -> bool) (fuel : nat) (k : nat)
    : M (list Z) :=
  match k with
  | O => ret []
  | S k' =>
      b <- readData tpoll line fuel ;;
      bs <- readBytes tpoll line fuel k' ;;
      ret (b :: bs)
  end.

(** Operations that neither set the direction nor drive a level. *)
Definition passive (op : pin_op) : bool :=
  match op with
  | GetLevel _ | DelayUs _ => true
  | _ => false
  end.

Definition is_poll (op : pin_op) : bool :=
  match op with
  | GetLevel _ => true
  | _ => false
  end.

Definition result {A} (o : outcome A) : option A :=
  match o with
  | Returned a _ => Some a
  | Spinning _ => None
  end.

(** ** Properties of runs *)

(** [w'] is reached from [w] by reading the pin and waiting only: the
    direction and the driven level are those of [w], the clock has not
    gone back, and the operations added are all passive. *)
Definition quiet_step (w w' : world) : Prop :=
  direction w' = direction w /\
  driven w' = driven w /\
  (now w <= now w')%N /\
  exists ops, trace w' = trace w ++ ops /\ forallb passive ops = true.

Definition quiet {A} (m : M A) : Prop :=
  forall w, quiet_step w (final_world (m w)).

(** A call that returns under some budget returns the same under any
    larger one. *)
Definition mono {A} (F : nat -> M A) : Prop :=
  forall f f' w a w',
    f <= f' -> F f w = Returned a w' -> F f' w = Returned a w'.

(** The line holds [lvl] from [a] up to, not including, [b]. *)
Definition steady (line : N -> bool) (lvl : bool) (a b : N) : Prop :=
  forall t, (a <= t < b)%N -> line t = lvl.

(** From [T] on the line does not change any more. *)
Definition stalled (line : N -> bool) (T : N) : Prop :=
  exists b, forall t, (T <= t)%N -> line t = b.

(** The six operations of the start signal. *)
Definition handshake_ops : list pin_op :=
  [SetDirection GPIO_MODE_OUTPUT; SetLevel false; DelayUs (19 * 1000)%N;
   SetLevel true; DelayUs 30%N; SetDirection GPIO_MODE_INPUT].

(** ** Sample frames *)

(** The frames of the spec's two scenarios, [0x32 0x00 0x15 0x00 0x47]
    and the same with checksum [0x48], and a frame whose data bytes add
    up to more than 255. *)
Definition good_frame : N -> bool :=
  wave (frame_pulses [50; 0; 21; 0; 71]%Z) true.

Definition bad_frame : N -> bool :=
  wave (frame_pulses [50; 0; 21; 0; 72]%Z) true.

Definition wrap_frame : N -> bool :=
  wave (frame_pulses [200; 0; 100; 0; 44]%Z) true.

Definition after_frame (line : N -> bool) : world :=
  final_world (readBytes 1 line 100 5 (listening 0)).

(** The world when [startSignal] enters its first wait loop. *)
Definition after_handshake (w : world) : world :=
  mkWorld (now w + 19 * 1000 + 30)%N GPIO_MODE_INPUT true
          (trace w ++ handshake_ops).

Definition pad_selected (w : world) : world :=
  mkWorld (now w) (direction w) (driven w) (trace w ++ [PadSelect]).

(** A frame with a wrong checksum, answered to a start signal. *)
Definition bad_answer : N -> bool := sensor_answer [50; 0; 21; 0; 72]%Z.

(** A request as far as [k] whole bytes and [j] bits of the next. *)
Definition received (tpoll : N) (line : N -> bool) (fuel k j : nat) : M Z :=
  gpio_pad_select_gpio ;;
  startSignal tpoll line fuel ;;
  readBytes tpoll line fuel k ;;
  readData_loop tpoll line fuel j 0%Z.

Definition total_len (segs : list (N * bool)) : N :=
  fold_right (fun seg acc => fst seg + acc)%N 0%N segs.

(** A sensor that answers, sends the byte 50 and two more bits, takes
    the line low and then does nothing more. *)
Definition stall_pulses : list (N * bool) :=
  ((19020, true) :: (80, false) :: (80, true) ::
   byte_pulses 50 ++ [(50, false); (70, true); (50, false); (26, true)])%N.

Definition stall_line : N -> bool := wave stall_pulses false.

(** The pulses of the single byte [0xA5], closed by a low gap. *)
Definition a5_line : N -> bool :=
  wave (byte_pulses 165 ++ [(50, false)]%N) true.

(** The request on [stall_line] as far as one byte and two bits. *)
Definition stall_point : outcome Z := received 1 stall_line 100 1 2 power_on.

(** A line that is never pulled low, and one that is never released. *)
Definition line_high : N -> bool := fun _ => true.
Definition line_low : N -> bool := fun _ => false.

(** The page and console line for the wrong-checksum frame. *)
Definition bad_page : handled :=
  mkHandled ("DHT11 Error!" ++ crlf) (htmlPage 21 50) ESP_OK.

(** A request answered with the wrong-checksum frame. *)
Definition bad_request : outcome handled :=
  get_handler 1 bad_answer 100 (mkData 7 7 7) power_on.

(** ** The page buffer *)

(** [#define BUFFERSIZE 2048], the size of [htmlPage] in [get_handler]. *)
Definition BUFFERSIZE : nat := 2048.

(** ** Pulse trains of any widths *)

(** From [t0] the line carries the pulses [ps], each given by the
    duration of its low gap and of its high pulse, and then stays low
    for [tail] microseconds. *)
Fixpoint pulse_train (line : N -> bool) (t0 : N) (ps : list (nat * nat))
    (tail : nat) : bool :=
  match ps with
  | [] => steadyb line false t0 tail
  | (g, h) :: rest =>
      steadyb line false t0 g &&
      steadyb line true (t0 + N.of_nat g)%N h &&
      pulse_train line (t0 + N.of_nat g + N.of_nat h)%N rest tail
  end.

(** The low time that comes first in a train. *)
Definition first_gap (ps : list (nat * nat)) (tail : nat) : nat :=
  match ps with
  | [] => tail
  | (g, _) :: _ => g
  end.

Definition train_len (ps : list (nat * nat)) : N :=
  fold_right (fun p acc => N.of_nat (fst p) + N.of_nat (snd p) + acc)%N 0%N ps.

(** The bit [readData] makes of a high pulse of [h] microseconds: the
    line is sampled between [30 + tpoll] and [30 + 2 * tpoll]
    microseconds after the pulse began. *)
Definition reads_as (tpoll : N) (h : nat) : bool :=
  (30 + 2 * tpoll <=? N.of_nat h)%N.

(** Pulses that the polling cannot miss or misjudge: each lasts at
    least one poll and ends before or after the sampling window, and
    the low time after it is long enough for the loop to be back
    before the next pulse. *)
Fixpoint clear_pulses (tpoll : N) (ps : list (nat * nat)) (tail : nat) : bool :=
  match ps with
  | [] => true
  | (g, h) :: rest =>
      (tpoll <=? N.of_nat h)%N &&
      ((N.of_nat h <=? 30 + tpoll) || (30 + 2 * tpoll <=? N.of_nat h))%N &&
      (30 + 4 * tpoll <=? N.of_nat h + N.of_nat (first_gap rest tail))%N &&
      (2 * tpoll <=? N.of_nat (first_gap rest tail))%N &&
      clear_pulses tpoll rest tail
  end.

(** No gap and no pulse outlasts the budget of a wait loop. *)
Definition within_budget (fuel : nat) (ps : list (nat * nat)) : bool :=
  forallb (fun p => (fst p <? fuel) && (snd p <? fuel)) ps.

(** The segments of a train, for [wave]. *)
Definition train_segments (ps : list (nat * nat)) : list (N * bool) :=
  flat_map (fun p => [(N.of_nat (fst p), false); (N.of_nat (snd p), true)]) ps.

(** A train of uneven pulses. *)
Definition uneven_pulses : list (nat * nat) :=
  [(50, 20); (40, 90); (60, 31); (50, 32); (45, 26); (50, 70); (50, 28); (55, 100)].

Definition uneven_line : N -> bool :=
  wave (train_segments uneven_pulses ++ [(50, false)]%N) true.

(** The pulses of a byte and of a frame in the DHT11 format, as a
    train: 50 us low before each bit, 26 us high for 0, 70 us for 1. *)
Definition byte_train (v : Z) : list (nat * nat) :=
  map (fun b : bool => (50, if b then 70 else 26)) (bits_of_byte v).

Definition frame_train (bytes : list Z) : list (nat * nat) :=
  flat_map byte_train bytes.

(** The sensor's response, 80 us low and 80 us high, followed by the
    byte 50, on a line that [readData] meets before the response. *)
Definition response_pulses : list (nat * nat) :=
  (80, 80) :: firstn 7 (byte_train 50).

Definition response_line : N -> bool :=
  wave ([(80, false); (80, true)]%N ++ byte_pulses 50 ++ [(50, false)]%N) true.

(** ** The Wi-Fi event handler *)

(** [#define EXAMPLE_ESP_MAXIMUM_RETRY 20] *)
Definition EXAMPLE_ESP_MAXIMUM_RETRY : Z := 20.

(** The event bases the handler compares with; any other base is
    [OTHER_EVENT]. *)
Inductive esp_event_base_t := WIFI_EVENT | IP_EVENT | OTHER_EVENT.

Definition base_eqb (a b : esp_event_base_t) : bool :=
  match a, b with
  | WIFI_EVENT, WIFI_EVENT | IP_EVENT, IP_EVENT | OTHER_EVENT, OTHER_EVENT => true
  | _, _ => false
  end.

(** The arguments of [event_handler]: the base, the id, and the
    address found behind [event_data]. *)
Record event := mkEvent {
  event_base : esp_event_base_t;
  event_id : Z;
  event_ip : Z
}.

(** What the handler does to the outside, in order. *)
Inductive wifi_action :=
| EspWifiConnect
| SetBits (bits : Z)
| LogI (msg : string)
| LogGotIp (ip : Z).

Section WifiEvents.

(** The event ids and the event-group bits come from the headers of
    the SDK, which are not part of the repository. *)
Variable WIFI_EVENT_STA_START : Z.
Variable WIFI_EVENT_STA_DISCONNECTED : Z.
Variable IP_EVENT_STA_GOT_IP : Z.
Variable WIFI_CONNECTED_BIT : Z.
Variable WIFI_FAIL_BIT : Z.

Definition is_sta_start (e : event) : bool :=
  base_eqb (event_base e) WIFI_EVENT && (event_id e =? WIFI_EVENT_STA_START)%Z.

Definition is_sta_disconnected (e : event) : bool :=
  base_eqb (event_base e) WIFI_EVENT &&
  (event_id e =? WIFI_EVENT_STA_DISCONNECTED)%Z.

Definition is_got_ip (e : event) : bool :=
  base_eqb (event_base e) IP_EVENT && (event_id e =? IP_EVENT_STA_GOT_IP)%Z.

(** [static void event_handler(...)]: from the value of [s_retry_num]
    to its new value and the actions taken. *)
Definition event_handler (s_retry_num : Z) (e : event) : Z * list wifi_action :=
  if is_sta_start e then
    (s_retry_num, [EspWifiConnect])
  else if is_sta_disconnected e then
    let '(s, acts) :=
      if (s_retry_num <? EXAMPLE_ESP_MAXIMUM_RETRY)%Z
      then ((s_retry_num + 1)%Z,
            [EspWifiConnect; LogI "retry to connect to the AP"])
      else (s_retry_num, [SetBits WIFI_FAIL_BIT]) in
    (s, acts ++ [LogI "connect to the AP fail"])
  else if is_got_ip e then
    (0%Z, [LogGotIp (event_ip e); SetBits WIFI_CONNECTED_BIT])
  else
    (s_retry_num, []).

(** The handler called on a sequence of events. *)
Fixpoint handle_events (s_retry_num : Z) (es : list event)
    : Z * list wifi_action :=
  match es with
  | [] => (s_retry_num, [])
  | e :: rest =>
      let '(s1, a1) := event_handler s_retry_num e in
      let '(s2, a2) := handle_events s1 rest in
      (s2, a1 ++ a2)
  end.

End WifiEvents.

Definition is_connect (a : wifi_action) : bool :=
  match a with
  | EspWifiConnect => true
  | _ => false
  end.

Definition is_set_bits (bits : Z) (a : wifi_action) : bool :=
  match a with
  | SetBits b => (b =? bits)%Z
  | _ => false
  end.

Definition count {A} (P : A -> bool) (l : list A) : nat :=
  List.length (filter P l).

(** Twenty-three disconnections in a row, with the ids of the SDK
    (start 2, disconnected 5, got-ip 0) and the bits 1 and 2. *)
Definition lost_ap : list event := repeat (mkEvent WIFI_EVENT 5 0) 23.

(** ** Bit-level waits *)

(** A request as far as one of its bit-level waits: after [k] bytes and
    [j] bits it is about to wait for the rising edge that starts the
    next pulse ([in_pulse = false]); after the first wait, the delay
    and the sample of that bit it is about to wait for the falling edge
    that ends the pulse ([in_pulse = true]). *)
Definition waiting_at (tpoll : N) (line : N -> bool) (fuel k j : nat)
    (in_pulse : bool) : M unit :=
  received tpoll line fuel k j ;;
  if in_pulse
  then (while_level tpoll line false fuel ;;
        ets_delay_us 30 ;;
        gpio_get_level tpoll line ;;
        ret tt)
  else ret tt.

(** A sensor that answers, sends the byte 50 and one more bit, starts
    the pulse of the next bit and never ends it: the line stays high. *)
Definition released_pulses : list (N * bool) :=
  ((19020, true) :: (80, false) :: (80, true) ::
   byte_pulses 50 ++ [(50, false); (70, true); (50, false)])%N.

Definition released_line : N -> bool := wave released_pulses true.

Definition released_point : outcome unit :=
  waiting_at 1 released_line 100 1 1 true power_on.

(** A sensor that answers 40 us after the release: the line is still
    high when [startSignal] switches the pin to input. *)
Definition late_answer : N -> bool :=
  wave ((19040, true) :: (80, false) :: (80, true) ::
        frame_pulses [50; 0; 21; 0; 71]%Z)%N true.

(** ** The monad *)

Lemma bind_returned_inv {A B} (m : M A) (k : A -> M B) w b w2 :
  bind m k w = Returned b w2 ->
  exists a w1, m w = Returned a w1 /\ k a w1 = Returned b w2.
Proof.
  unfold bind. destruct (m w) as [a w1|w1]; [eauto | discriminate].
Qed.

Lemma bind_returned {A B} (m : M A) (k : A -> M B) w a w1 :
  m w = Returned a w1 -> bind m k w = k a w1.
Proof. unfold bind. now intros ->. Qed.

Lemma bind_spinning {A B} (m : M A) (k : A -> M B) w w1 :
  m w = Spinning w1 -> bind m k w = Spinning w1.
Proof. unfold bind. now intros ->. Qed.

Lemma returns_false_bind {A B} (m : M A) (k : A -> M B) w :
  returns (m w) = false -> returns (bind m k w) = false.
Proof. unfold bind. destruct (m w); [discriminate | reflexivity]. Qed.

Lemma returns_true_inv {A} (o : outcome A) :
  returns o = true -> exists a w, o = Returned a w.
Proof. destruct o; [eauto | discriminate]. Qed.

(** ** Quiet computations *)

Lemma quiet_step_refl w : quiet_step w w.
Proof.
  unfold quiet_step. repeat split; auto; try lia.
  exists []. now rewrite app_nil_r.
Qed.

Lemma quiet_step_trans w1 w2 w3 :
  quiet_step w1 w2 -> quiet_step w2 w3 -> quiet_step w1 w3.
Proof.
  intros (Hd1 & Hl1 & Hn1 & o1 & Ht1 & Hp1) (Hd2 & Hl2 & Hn2 & o2 & Ht2 & Hp2).
  repeat split; try congruence; try lia.
  exists (o1 ++ o2). rewrite Ht2, Ht1, app_assoc, forallb_app, Hp1, Hp2.
  now split.
Qed.

Lemma quiet_ret {A} (a : A) : quiet (ret a).
Proof. intro w. apply quiet_step_refl. Qed.

Lemma quiet_bind {A B} (m : M A) (k : A -> M B) :
  quiet m -> (forall a, quiet (k a)) -> quiet (bind m k).
Proof.
  intros Hm Hk w. unfold bind. specialize (Hm w).
  destruct (m w) as [a w1|w1]; cbn in *; [|assumption].
  eapply quiet_step_trans; [eassumption | apply Hk].
Qed.

Lemma quiet_ets_delay_us us : quiet (ets_delay_us us).
Proof.
  intro w. unfold quiet_step. cbn. repeat split; try lia.
  now exists [DelayUs us].
Qed.

Lemma quiet_gpio_get_level tpoll line : quiet (gpio_get_level tpoll line).
Proof.
  intro w. unfold quiet_step. cbn. repeat split; try lia.
  eexists [GetLevel _]. now split.
Qed.

Lemma quiet_while_level tpoll line lvl fuel :
  quiet (while_level tpoll line lvl fuel).
Proof.
  induction fuel as [|f IH]; cbn [while_level].
  - intro w. apply quiet_step_refl.
  - apply quiet_bind; [apply quiet_gpio_get_level|].
    intro l. destruct (Bool.eqb l lvl); [exact IH | apply quiet_ret].
Qed.

Lemma quiet_readData_loop tpoll line fuel n :
  forall sbuf, quiet (readData_loop tpoll line fuel n sbuf).
Proof.
  induction n as [|n IH]; intro sbuf; cbn [readData_loop].
  - apply quiet_ret.
  - repeat (apply quiet_bind; [| intro]);
      auto using quiet_while_level, quiet_ets_delay_us, quiet_gpio_get_level.
Qed.

Lemma quiet_readData tpoll line fuel : quiet (readData tpoll line fuel).
Proof. apply quiet_readData_loop. Qed.

Lemma quiet_readBytes tpoll line fuel k : quiet (readBytes tpoll line fuel k).
Proof.
  induction k as [|k IH]; cbn [readBytes].
  - apply quiet_ret.
  - apply quiet_bind; [apply quiet_readData | intro b].
    apply quiet_bind; [exact IH | intro bs]. apply quiet_ret.
Qed.

Lemma quiet_getData tpoll line fuel temp : quiet (getData tpoll line fuel temp).
Proof.
  unfold getData.
  repeat (apply quiet_bind; [apply quiet_readData | intro]).
  apply quiet_ret.
Qed.

Lemma quiet_returned {A} (m : M A) w a w' :
  quiet m -> m w = Returned a w' -> quiet_step w w'.
Proof. intros Hq H. specialize (Hq w). now rewrite H in Hq. Qed.

(** ** Bytes *)

Lemma log2_byte a : (0 <= a < 256)%Z -> (Z.log2 a < 8)%Z.
Proof.
  intro H. destruct (Z.eq_dec a 0) as [->|Hnz]; [cbn; lia|].
  apply Z.log2_lt_pow2; [lia|]. change (2 ^ 8)%Z with 256%Z. lia.
Qed.

Lemma lor_byte_range a b :
  (0 <= a < 256)%Z -> (0 <= b < 256)%Z -> (0 <= Z.lor a b < 256)%Z.
Proof.
  intros Ha Hb.
  assert (Hnn : (0 <= Z.lor a b)%Z) by (apply Z.lor_nonneg; lia).
  split; [exact Hnn|].
  destruct (Z.eq_dec (Z.lor a b) 0) as [->|Hnz]; [lia|].
  change 256%Z with (2 ^ 8)%Z. apply Z.log2_lt_pow2; [lia|].
  rewrite Z.log2_lor by lia.
  apply Z.max_lub_lt; apply log2_byte; assumption.
Qed.

Lemma readData_loop_range tpoll line fuel n :
  forall sbuf w v w',
    (0 <= sbuf < 256)%Z ->
    readData_loop tpoll line fuel n sbuf w = Returned v w' ->
    (0 <= v < 256)%Z.
Proof.
  induction n as [|n IH]; intros sbuf w v w' Hs H; cbn [readData_loop] in H.
  - inversion H; subst; assumption.
  - apply bind_returned_inv in H as (? & w1 & _ & H).
    apply bind_returned_inv in H as (? & w2 & _ & H).
    apply bind_returned_inv in H as (l & w3 & _ & H).
    apply bind_returned_inv in H as (? & w4 & _ & H).
    eapply IH; [|exact H].
    assert (Hm : (0 <= Z.shiftl sbuf 1 mod 256 < 256)%Z)
      by (apply Z.mod_pos_bound; lia).
    destruct l; apply lor_byte_range; lia.
Qed.

Lemma readData_range tpoll line fuel w v w' :
  readData tpoll line fuel w = Returned v w' -> (0 <= v < 256)%Z.
Proof. apply readData_loop_range. lia. Qed.

(** ** Assembly of the record *)

Lemma getData_store_fields b0 b1 b2 b3 b4 temp :
  getData_store b0 b1 b2 b3 b4 temp =
  mkData b2 b0 (if (b4 =? b0 + b1 + b2 + b3)%Z then 0 else 1)%Z.
Proof. unfold getData_store. destruct (b4 =? b0 + b1 + b2 + b3)%Z; reflexivity. Qed.

Lemma readBytes_5_inv tpoll line fuel w bs w5 :
  readBytes tpoll line fuel 5 w = Returned bs w5 ->
  exists b0 b1 b2 b3 b4 w1 w2 w3 w4,
    bs = [b0; b1; b2; b3; b4] /\
    readData tpoll line fuel w = Returned b0 w1 /\
    readData tpoll line fuel w1 = Returned b1 w2 /\
    readData tpoll line fuel w2 = Returned b2 w3 /\
    readData tpoll line fuel w3 = Returned b3 w4 /\
    readData tpoll line fuel w4 = Returned b4 w5.
Proof.
  cbn [readBytes]. intro H.
  apply bind_returned_inv in H as (b0 & w1 & H0 & H).
  apply bind_returned_inv in H as (l0 & u0 & H & E0).
  apply bind_returned_inv in H as (b1 & w2 & H1 & H).
  apply bind_returned_inv in H as (l1 & u1 & H & E1).
  apply bind_returned_inv in H as (b2 & w3 & H2 & H).
  apply bind_returned_inv in H as (l2 & u2 & H & E2).
  apply bind_returned_inv in H as (b3 & w4 & H3 & H).
  apply bind_returned_inv in H as (l3 & u3 & H & E3).
  apply bind_returned_inv in H as (b4 & w5' & H4 & H).
  apply bind_returned_inv in H as (l4 & u4 & H & E4).
  unfold ret in *.
  inversion H; inversion E4; inversion E3; inversion E2; inversion E1;
    inversion E0; subst.
  exists b0, b1, b2, b3, b4, w1, w2, w3, w4. auto 10.
Qed.

Lemma readBytes_5_chain tpoll line fuel w b0 b1 b2 b3 b4 w1 w2 w3 w4 w5 :
  readData tpoll line fuel w = Returned b0 w1 ->
  readData tpoll line fuel w1 = Returned b1 w2 ->
  readData tpoll line fuel w2 = Returned b2 w3 ->
  readData tpoll line fuel w3 = Returned b3 w4 ->
  readData tpoll line fuel w4 = Returned b4 w5 ->
  readBytes tpoll line fuel 5 w = Returned [b0; b1; b2; b3; b4] w5.
Proof.
  intros H0 H1 H2 H3 H4. cbn [readBytes]. unfold bind.
  rewrite H0; cbn beta iota. rewrite H1; cbn beta iota.
  rewrite H2; cbn beta iota. rewrite H3; cbn beta iota.
  rewrite H4; cbn beta iota. reflexivity.
Qed.

Lemma getData_chain tpoll line fuel temp w b0 b1 b2 b3 b4 w1 w2 w3 w4 w5 :
  readData tpoll line fuel w = Returned b0 w1 ->
  readData tpoll line fuel w1 = Returned b1 w2 ->
  readData tpoll line fuel w2 = Returned b2 w3 ->
  readData tpoll line fuel w3 = Returned b3 w4 ->
  readData tpoll line fuel w4 = Returned b4 w5 ->
  getData tpoll line fuel temp w =
  Returned (getData_store b0 b1 b2 b3 b4 temp) w5.
Proof.
  intros H0 H1 H2 H3 H4. unfold getData.
  rewrite (bind_returned _ _ _ _ _ H0), (bind_returned _ _ _ _ _ H1),
    (bind_returned _ _ _ _ _ H2), (bind_returned _ _ _ _ _ H3),
    (bind_returned _ _ _ _ _ H4).
  reflexivity.
Qed.

Lemma getData_inv tpoll line fuel temp w d w5 :
  getData tpoll line fuel temp w = Returned d w5 ->
  exists b0 b1 b2 b3 b4,
    readBytes tpoll line fuel 5 w = Returned [b0; b1; b2; b3; b4] w5 /\
    d = getData_store b0 b1 b2 b3 b4 temp.
Proof.
  unfold getData. intro H.
  apply bind_returned_inv in H as (b0 & w1 & H0 & H).
  apply bind_returned_inv in H as (b1 & w2 & H1 & H).
  apply bind_returned_inv in H as (b2 & w3 & H2 & H).
  apply bind_returned_inv in H as (b3 & w4 & H3 & H).
  apply bind_returned_inv in H as (b4 & w5' & H4 & H).
  inversion H; subst.
  exists b0, b1, b2, b3, b4. split; [|reflexivity].
  eapply readBytes_5_chain; eassumption.
Qed.

Lemma getData_of_readBytes tpoll line fuel temp w b0 b1 b2 b3 b4 w5 :
  readBytes tpoll line fuel 5 w = Returned [b0; b1; b2; b3; b4] w5 ->
  getData tpoll line fuel temp w =
  Returned (getData_store b0 b1 b2 b3 b4 temp) w5.
Proof.
  intro H. apply readBytes_5_inv in H
    as (c0 & c1 & c2 & c3 & c4 & w1 & w2 & w3 & w4 & E & H0 & H1 & H2 & H3 & H4).
  inversion E; subst. eapply getData_chain; eassumption.
Qed.

Lemma readBytes_5_range tpoll line fuel w b0 b1 b2 b3 b4 w5 :
  readBytes tpoll line fuel 5 w = Returned [b0; b1; b2; b3; b4] w5 ->
  (0 <= b0 < 256 /\ 0 <= b1 < 256 /\ 0 <= b2 < 256 /\
   0 <= b3 < 256 /\ 0 <= b4 < 256)%Z.
Proof.
  intro H. apply readBytes_5_inv in H
    as (c0 & c1 & c2 & c3 & c4 & w1 & w2 & w3 & w4 & E & H0 & H1 & H2 & H3 & H4).
  inversion E; subst.
  repeat split; eapply readData_range; eassumption.
Qed.

(** C1, at the failing input.  The frame [200 0 100 0 44] carries the
    checksum the sensor protocol asks for, 44 = (200+0+100+0) mod 256,
    and [getData] reports it as an error: the sum it compares with is
    300. *)
Theorem getData_checksum_sum_not_reduced :
  (44 = (200 + 0 + 100 + 0) mod 256)%Z /\
  result (getData 1 wrap_frame 100 (mkData 0 0 0) (listening 0)) =
  Some (mkData 100 200 1).
Proof. split; vm_compute; reflexivity. Qed.

(** The status [getData] stores is 0 exactly when the fifth byte equals
    the sum of the first four, taken without reduction. *)
Lemma getData_store_status b0 b1 b2 b3 b4 temp :
  status (getData_store b0 b1 b2 b3 b4 temp) = 0%Z <->
  (b4 = b0 + b1 + b2 + b3)%Z.
Proof.
  rewrite getData_store_fields. cbn [status].
  destruct (Z.eqb_spec b4 (b0 + b1 + b2 + b3)); split; intro; try lia;
    try discriminate; contradiction.
Qed.

(** C5: the five bytes are read one after the other in the order
    humidity, humidity fraction, temperature, temperature fraction,
    checksum; the record keeps the first as humidity and the third as
    temperature, and the status compares the fifth with the sum of all
    four data bytes, fractions included. *)
Theorem getData_reads_five_in_order
    tpoll line fuel temp w rh rh_frac t t_frac cks w' :
  readBytes tpoll line fuel 5 w = Returned [rh; rh_frac; t; t_frac; cks] w' ->
  getData tpoll line fuel temp w =
  Returned (mkData t rh (if (cks =? rh + rh_frac + t + t_frac)%Z then 0 else 1)%Z) w'.
Proof.
  intro H. rewrite <- getData_store_fields with (temp := temp).
  now apply getData_of_readBytes.
Qed.

Lemma getData_reads_five_in_order_witness :
  readBytes 1 good_frame 100 5 (listening 0) =
    Returned [50; 0; 21; 0; 71]%Z (after_frame good_frame) /\
  getData 1 good_frame 100 (mkData 7 7 7) (listening 0) =
    Returned (mkData 21 50 0) (after_frame good_frame).
Proof.
  assert (H : readBytes 1 good_frame 100 5 (listening 0) =
              Returned [50; 0; 21; 0; 71]%Z (after_frame good_frame))
    by (vm_compute; reflexivity).
  split; [exact H|].
  apply (@getData_reads_five_in_order 1 good_frame 100 (mkData 7 7 7)
           (listening 0) 50 0 21 0 71 (after_frame good_frame) H)%Z.
Defined.

(** C6: a frame whose checksum byte differs from the sum of the data
    bytes modulo 256 is not an error of the call: [getData] returns,
    the record carries the temperature and the humidity that were
    received, and the mismatch shows in the status field alone. *)
Theorem checksum_mismatch_only_sets_status
    tpoll line fuel temp w b0 b1 b2 b3 b4 w' :
  readBytes tpoll line fuel 5 w = Returned [b0; b1; b2; b3; b4] w' ->
  (b4 <> (b0 + b1 + b2 + b3) mod 256)%Z ->
  getData tpoll line fuel temp w = Returned (mkData b2 b0 1) w'.
Proof.
  intros H Hne.
  rewrite (getData_of_readBytes _ _ _ temp _ _ _ _ _ _ _ H), getData_store_fields.
  destruct (Z.eqb_spec b4 (b0 + b1 + b2 + b3)) as [E|_]; [|reflexivity].
  exfalso. apply Hne.
  pose proof (readBytes_5_range _ _ _ _ _ _ _ _ _ _ H) as (_ & _ & _ & _ & R4).
  rewrite <- E. symmetry. apply Z.mod_small. exact R4.
Qed.

Lemma checksum_mismatch_only_sets_status_witness :
  readBytes 1 bad_frame 100 5 (listening 0) =
    Returned [50; 0; 21; 0; 72]%Z (after_frame bad_frame) /\
  (72 <> (50 + 0 + 21 + 0) mod 256)%Z /\
  getData 1 bad_frame 100 (mkData 7 7 7) (listening 0) =
    Returned (mkData 21 50 1) (after_frame bad_frame).
Proof.
  assert (H : readBytes 1 bad_frame 100 5 (listening 0) =
              Returned [50; 0; 21; 0; 72]%Z (after_frame bad_frame))
    by (vm_compute; reflexivity).
  assert (Hne : (72 <> (50 + 0 + 21 + 0) mod 256)%Z)
    by (vm_compute; discriminate).
  split; [exact H|]. split; [exact Hne|].
  apply (@checksum_mismatch_only_sets_status 1 bad_frame 100 (mkData 7 7 7)
           (listening 0) 50 0 21 0 72 (after_frame bad_frame) H Hne)%Z.
Defined.

(** C10: a call of [getData] that returns has written the three fields:
    the status is 0 or 1, the temperature is the third byte read and
    the humidity the first, whatever the checksum, and nothing of the
    record's earlier content is left (another initial content gives the
    same record). *)
Theorem getData_writes_every_field tpoll line fuel temp w d w' :
  getData tpoll line fuel temp w = Returned d w' ->
  (status d = 0 \/ status d = 1)%Z /\
  (exists b0 b1 b2 b3 b4,
      readBytes tpoll line fuel 5 w = Returned [b0; b1; b2; b3; b4] w' /\
      temperature d = b2 /\ humidity d = b0) /\
  (forall temp', getData tpoll line fuel temp' w = Returned d w').
Proof.
  intro H. apply getData_inv in H as (b0 & b1 & b2 & b3 & b4 & H & ->).
  rewrite getData_store_fields. cbn [status temperature humidity].
  split; [destruct (b4 =? b0 + b1 + b2 + b3)%Z; auto|].
  split; [exists b0, b1, b2, b3, b4; auto|].
  intro temp'. rewrite <- getData_store_fields with (temp := temp').
  now apply getData_of_readBytes.
Qed.

Lemma getData_writes_every_field_witness :
  getData 1 bad_frame 100 (mkData 7 7 7) (listening 0) =
    Returned (mkData 21 50 1) (after_frame bad_frame) /\
  getData 1 bad_frame 100 (mkData 9 9 9) (listening 0) =
    Returned (mkData 21 50 1) (after_frame bad_frame).
Proof.
  assert (H : getData 1 bad_frame 100 (mkData 7 7 7) (listening 0) =
              Returned (mkData 21 50 1) (after_frame bad_frame))
    by (vm_compute; reflexivity).
  split; [exact H|].
  exact (proj2 (proj2 (getData_writes_every_field 1 bad_frame 100
           (mkData 7 7 7) (listening 0) _ _ H)) (mkData 9 9 9)).
Defined.

(** ** The wait loops *)

(** The polls a wait loop adds: the level it waits on, as long as the
    loop turns, and the other level if it leaves. *)
Lemma while_level_trace tpoll line lvl fuel :
  forall w,
    match while_level tpoll line lvl fuel w with
    | Returned _ w' =>
        exists n, n < fuel /\
          trace w' = trace w ++ repeat (GetLevel lvl) n ++ [GetLevel (negb lvl)]
    | Spinning w' => trace w' = trace w ++ repeat (GetLevel lvl) fuel
    end.
Proof.
  induction fuel as [|f IH]; intro w; cbn [while_level].
  - cbn. now rewrite app_nil_r.
  - unfold bind at 1. cbn [gpio_get_level].
    set (l := match direction w with
              | GPIO_MODE_INPUT => line (now w)
              | GPIO_MODE_OUTPUT => false
              end).
    set (w1 := mkWorld _ _ _ _).
    destruct (Bool.eqb l lvl) eqn:E.
    + apply Bool.eqb_prop in E. specialize (IH w1).
      destruct (while_level tpoll line lvl f w1) as [u w'|w'].
      * destruct IH as (n & Hn & Ht). exists (S n). split; [lia|].
        rewrite Ht. unfold w1, log. cbn [trace repeat]. rewrite E.
        now rewrite <- app_assoc.
      * rewrite IH. unfold w1, log. cbn [trace repeat]. rewrite E.
        now rewrite <- app_assoc.
    + exists 0. split; [lia|]. cbn [ret repeat app].
      apply Bool.eqb_false_iff in E.
      assert (El : l = negb lvl) by (clearbody l; destruct l, lvl; cbn; congruence).
      unfold w1, log. cbn [trace]. now rewrite El.
Qed.

(** A loop waiting on a level the line never leaves does not return. *)
Lemma while_level_stuck tpoll line lvl fuel :
  forall w,
    direction w = GPIO_MODE_INPUT ->
    (forall t, (now w <= t)%N -> line t = lvl) ->
    returns (while_level tpoll line lvl fuel w) = false.
Proof.
  induction fuel as [|f IH]; intros w Hd Hl; cbn [while_level].
  - reflexivity.
  - unfold bind at 1. cbn [gpio_get_level]. rewrite Hd, (Hl (now w)) by lia.
    rewrite Bool.eqb_reflx. apply IH; [reflexivity|].
    cbn [now]. intros t Ht. apply Hl. lia.
Qed.

(** A loop whose first poll finds the other level returns at once. *)
Lemma while_level_immediate tpoll line lvl fuel w :
  direction w = GPIO_MODE_INPUT ->
  line (now w) = negb lvl ->
  while_level tpoll line lvl (S fuel) w =
  Returned tt (mkWorld (now w + tpoll)%N (direction w) (driven w)
                       (log (GetLevel (negb lvl)) w)).
Proof.
  intros Hd Hl. cbn [while_level]. unfold bind. cbn [gpio_get_level].
  rewrite Hd, Hl. destruct lvl; reflexivity.
Qed.

(** ** The handshake *)

Lemma forallb_repeat {A} (P : A -> bool) x n :
  P x = true -> forallb P (repeat x n) = true.
Proof. intro H. induction n; cbn; [reflexivity | now rewrite H]. Qed.

Lemma startSignal_waits tpoll line fuel w :
  startSignal tpoll line fuel w =
  (while_level tpoll line false fuel ;; while_level tpoll line true fuel)
    (after_handshake w).
Proof.
  unfold startSignal, after_handshake, handshake_ops.
  unfold bind at 1 2 3 4 5 6.
  unfold gpio_set_direction, gpio_set_level, ets_delay_us, log.
  cbn [now direction driven trace].
  repeat rewrite <- app_assoc. reflexivity.
Qed.

Lemma startSignal_outcome tpoll line fuel w :
  direction (final_world (startSignal tpoll line fuel w)) = GPIO_MODE_INPUT /\
  match startSignal tpoll line fuel w with
  | Returned _ w' =>
      exists nlow nhigh,
        trace w' = trace w ++ handshake_ops ++
                   repeat (GetLevel false) nlow ++
                   repeat (GetLevel true) (S nhigh) ++ [GetLevel false]
  | Spinning w' =>
      exists polls,
        trace w' = trace w ++ handshake_ops ++ polls /\
        forallb is_poll polls = true
  end.
Proof.
  rewrite startSignal_waits. unfold bind.
  pose proof (while_level_trace tpoll line false fuel (after_handshake w)) as H1.
  pose proof (quiet_while_level tpoll line false fuel (after_handshake w)) as Q1.
  destruct (while_level tpoll line false fuel (after_handshake w)) as [u w1|w1].
  - destruct H1 as (nlow & _ & T1). cbn in Q1. destruct Q1 as (D1 & _).
    pose proof (while_level_trace tpoll line true fuel w1) as H2.
    pose proof (quiet_while_level tpoll line true fuel w1) as Q2.
    destruct (while_level tpoll line true fuel w1) as [u2 w2|w2];
      cbn in Q2; destruct Q2 as (D2 & _).
    + split; [cbn; rewrite D2, D1; reflexivity|].
      destruct H2 as (nhigh & _ & T2). exists nlow, nhigh.
      rewrite T2, T1. cbn [after_handshake trace negb repeat].
      repeat rewrite <- app_assoc. reflexivity.
    + split; [cbn; rewrite D2, D1; reflexivity|].
      exists (repeat (GetLevel false) nlow ++ [GetLevel true] ++
              repeat (GetLevel true) fuel).
      rewrite H2, T1. cbn [after_handshake trace negb].
      repeat rewrite <- app_assoc. split; [reflexivity|].
      rewrite !forallb_app, !forallb_repeat by reflexivity. reflexivity.
  - cbn in Q1. destruct Q1 as (D1 & _). split; [exact D1|].
    exists (repeat (GetLevel false) fuel). rewrite H1.
    cbn [after_handshake trace]. rewrite <- app_assoc. split; [reflexivity|].
    now apply forallb_repeat.
Qed.

(** On the answer of a sensor the handshake returns. *)
Example startSignal_returns_on_answer :
  returns (startSignal 1 bad_answer 100 power_on) = true /\
  now (final_world (startSignal 1 bad_answer 100 power_on)) = 19181%N.
Proof. split; vm_compute; reflexivity. Qed.

(** ** One request *)

Lemma get_handler_unfold tpoll line fuel currentData w :
  get_handler tpoll line fuel currentData w =
  ((while_level tpoll line false fuel ;; while_level tpoll line true fuel) ;;
   d <- getData tpoll line fuel currentData ;;
   ret (mkHandled (console_line d) (htmlPage (temperature d) (humidity d)) ESP_OK))
    (after_handshake (pad_selected w)).
Proof.
  unfold get_handler. unfold bind at 1. cbn [gpio_pad_select_gpio].
  unfold bind at 1. rewrite startSignal_waits. reflexivity.
Qed.

Lemma forallb_passive_of_poll polls :
  forallb is_poll polls = true -> forallb passive polls = true.
Proof.
  induction polls as [|o polls IH]; cbn; [auto|].
  intro H. apply andb_prop in H as [Ho H]. rewrite (IH H).
  destruct o; cbn in *; congruence.
Qed.

(** After the handshake a request only polls and waits. *)
Lemma get_handler_after_handshake tpoll line fuel currentData w :
  quiet_step (after_handshake (pad_selected w))
             (final_world (get_handler tpoll line fuel currentData w)).
Proof.
  rewrite get_handler_unfold.
  apply quiet_bind.
  - apply quiet_bind; [apply quiet_while_level | intro; apply quiet_while_level].
  - intro. apply quiet_bind; [apply quiet_getData | intro; apply quiet_ret].
Qed.

Lemma get_handler_trace tpoll line fuel currentData w :
  exists later,
    trace (final_world (get_handler tpoll line fuel currentData w)) =
      trace w ++ PadSelect :: handshake_ops ++ later /\
    forallb passive later = true.
Proof.
  destruct (get_handler_after_handshake tpoll line fuel currentData w)
    as (_ & _ & _ & later & T & P).
  exists later. split; [|exact P].
  rewrite T. cbn [after_handshake pad_selected trace].
  repeat rewrite <- app_assoc. reflexivity.
Qed.

(** C8: whatever the line does and however long the request runs, the
    pin is an input when the request is over or still waiting, its
    output latch is at the released (high) level, and once the
    handshake has switched the pin to input every further operation on
    the pin is a read or a delay. *)
Theorem pin_left_as_input tpoll line fuel currentData w :
  direction (final_world (get_handler tpoll line fuel currentData w))
    = GPIO_MODE_INPUT /\
  driven (final_world (get_handler tpoll line fuel currentData w)) = true /\
  exists later,
    trace (final_world (get_handler tpoll line fuel currentData w)) =
      trace w ++ PadSelect :: handshake_ops ++ later /\
    forallb passive later = true.
Proof.
  destruct (get_handler_after_handshake tpoll line fuel currentData w)
    as (D & L & _).
  split; [exact D|]. split; [exact L|].
  apply get_handler_trace.
Qed.

Lemma get_handler_inv tpoll line fuel currentData w h w' :
  get_handler tpoll line fuel currentData w = Returned h w' ->
  exists w1 d,
    startSignal tpoll line fuel (pad_selected w) = Returned tt w1 /\
    getData tpoll line fuel currentData w1 = Returned d w' /\
    h = mkHandled (console_line d) (htmlPage (temperature d) (humidity d)) ESP_OK.
Proof.
  unfold get_handler. intro H.
  apply bind_returned_inv in H as (u & w0 & H0 & H).
  cbn [gpio_pad_select_gpio] in H0. inversion H0; subst. clear H0.
  apply bind_returned_inv in H as (u1 & w1 & H1 & H).
  apply bind_returned_inv in H as (d & w2 & H2 & H).
  inversion H; subst. destruct u1.
  exists w1, d. auto.
Qed.

(** A request that is answered has run the handshake once and
    [getData] once; the page sent is [htmlPage] of the temperature and
    the humidity of the record whether the status is 0 or not, and the
    console line is chosen by the status. *)
Theorem get_handler_renders tpoll line fuel currentData w h w' :
  get_handler tpoll line fuel currentData w = Returned h w' ->
  exists w1 d later,
    startSignal tpoll line fuel (pad_selected w) = Returned tt w1 /\
    getData tpoll line fuel currentData w1 = Returned d w' /\
    trace w' = trace w ++ PadSelect :: handshake_ops ++ later /\
    forallb passive later = true /\
    response h = htmlPage (temperature d) (humidity d) /\
    console h =
      (if (status d =? 0)%Z
       then "Temp=" ++ fmt_d (temperature d) ++ ", Humi=" ++
            fmt_d (humidity d) ++ crlf
       else "DHT11 Error!" ++ crlf)%string /\
    err h = ESP_OK.
Proof.
  intro H.
  destruct (get_handler_trace tpoll line fuel currentData w)
    as (later & T & P).
  rewrite H in T. cbn [final_world] in T.
  apply get_handler_inv in H as (w1 & d & H1 & H2 & ->).
  exists w1, d, later. cbn [response console err]. auto 10.
Qed.

Lemma get_handler_renders_witness :
  get_handler 1 bad_answer 100 (mkData 7 7 7) power_on =
    Returned bad_page (final_world bad_request) /\
  exists w1 d later,
    startSignal 1 bad_answer 100 (pad_selected power_on) = Returned tt w1 /\
    getData 1 bad_answer 100 (mkData 7 7 7) w1 =
      Returned d (final_world bad_request) /\
    trace (final_world bad_request) =
      trace power_on ++ PadSelect :: handshake_ops ++ later /\
    forallb passive later = true /\
    response bad_page = htmlPage (temperature d) (humidity d) /\
    console bad_page =
      (if (status d =? 0)%Z
       then "Temp=" ++ fmt_d (temperature d) ++ ", Humi=" ++
            fmt_d (humidity d) ++ crlf
       else "DHT11 Error!" ++ crlf)%string /\
    err bad_page = ESP_OK.
Proof.
  assert (E : get_handler 1 bad_answer 100 (mkData 7 7 7) power_on =
              Returned bad_page (final_world bad_request))
    by (vm_compute; reflexivity).
  split; [exact E|].
  exact (get_handler_renders 1 bad_answer 100 (mkData 7 7 7) power_on
           bad_page (final_world bad_request) E).
Defined.

(** The spec's first scenario, end to end: the frame
    [0x32 0x00 0x15 0x00 0x47] gives 21 degrees and 50 percent, with the
    values on the console. *)
Example get_handler_good_frame :
  result (get_handler 1 (sensor_answer [50; 0; 21; 0; 71]%Z) 100
            (mkData 7 7 7) power_on) =
  Some (mkHandled ("Temp=21, Humi=50" ++ crlf) (htmlPage 21 50) ESP_OK).
Proof. vm_compute. reflexivity. Qed.

(** ** Budgets *)

Lemma mono_const {A} (m : M A) : mono (fun _ => m).
Proof. intros f f' w a w' _ H. exact H. Qed.

Lemma mono_bind {A B} (F : nat -> M A) (K : nat -> A -> M B) :
  mono F -> (forall a, mono (fun f => K f a)) ->
  mono (fun f => bind (F f) (K f)).
Proof.
  intros HF HK f f' w b w2 Hle H.
  apply bind_returned_inv in H as (a & w1 & H1 & H2).
  rewrite (bind_returned _ _ _ _ _ (HF _ _ _ _ _ Hle H1)).
  exact (HK a _ _ _ _ _ Hle H2).
Qed.

Lemma mono_while_level tpoll line lvl : mono (while_level tpoll line lvl).
Proof.
  intros f. induction f as [|f IH]; intros f' w a w' Hle H.
  - discriminate.
  - destruct f' as [|f']; [lia|]. cbn [while_level] in *.
    apply bind_returned_inv in H as (l & w1 & H1 & H2).
    rewrite (bind_returned _ _ _ _ _ H1).
    destruct (Bool.eqb l lvl); [|exact H2].
    apply IH; [lia | exact H2].
Qed.

Lemma mono_readData_loop tpoll line n :
  forall sbuf, mono (fun f => readData_loop tpoll line f n sbuf).
Proof.
  induction n as [|n IH]; intro sbuf; cbn [readData_loop].
  - apply mono_const.
  - apply (mono_bind (fun f => while_level tpoll line false f));
      [apply mono_while_level | intros _].
    apply (mono_bind (fun _ => ets_delay_us 30)); [apply mono_const | intros _].
    apply (mono_bind (fun _ => gpio_get_level tpoll line));
      [apply mono_const | intro l].
    apply (mono_bind (fun f => while_level tpoll line true f));
      [apply mono_while_level | intros _].
    apply IH.
Qed.

Lemma mono_readData tpoll line : mono (readData tpoll line).
Proof. exact (mono_readData_loop tpoll line 8 0%Z). Qed.

Lemma mono_readBytes tpoll line k : mono (fun f => readBytes tpoll line f k).
Proof.
  induction k as [|k IH]; cbn [readBytes].
  - apply mono_const.
  - apply (mono_bind (readData tpoll line)); [apply mono_readData | intro b].
    apply (mono_bind (fun f => readBytes tpoll line f k)); [exact IH | intro bs].
    apply mono_const.
Qed.

Lemma mono_startSignal tpoll line : mono (startSignal tpoll line).
Proof.
  unfold startSignal.
  repeat (apply (mono_bind (fun _ => _)); [apply mono_const | intros _]).
  apply (mono_bind (fun f => while_level tpoll line false f));
    [apply mono_while_level | intros _].
  apply mono_while_level.
Qed.

(** Two budgets under which a call returns give the same result. *)
Lemma mono_same {A} (F : nat -> M A) f1 f2 w a1 w1 a2 w2 :
  mono F ->
  F f1 w = Returned a1 w1 -> F f2 w = Returned a2 w2 ->
  a1 = a2 /\ w1 = w2.
Proof.
  intros HF H1 H2.
  pose proof (HF f1 (Nat.max f1 f2) w a1 w1 (Nat.le_max_l _ _) H1) as E1.
  pose proof (HF f2 (Nat.max f1 f2) w a2 w2 (Nat.le_max_r _ _) H2) as E2.
  rewrite E1 in E2. inversion E2. auto.
Qed.

(** ** A line that stops changing *)

Lemma startSignal_unanswered tpoll line fuel w b :
  (forall t, (now w + 19 * 1000 + 30 <= t)%N -> line t = b) ->
  returns (startSignal tpoll line fuel w) = false.
Proof.
  intro Hb. rewrite startSignal_waits. destruct b.
  - destruct fuel as [|f]; [reflexivity|].
    unfold bind at 1.
    rewrite while_level_immediate
      by (try reflexivity; cbn [now after_handshake negb]; apply Hb; lia).
    apply while_level_stuck; [reflexivity|].
    cbn [now after_handshake]. intros t Ht. apply Hb. lia.
  - apply returns_false_bind. apply while_level_stuck; [reflexivity|].
    cbn [now after_handshake]. intros t Ht. apply Hb. lia.
Qed.

Lemma readData_loop_stalled tpoll line T fuel n sbuf w :
  stalled line T ->
  direction w = GPIO_MODE_INPUT ->
  (T <= now w)%N ->
  returns (readData_loop tpoll line fuel (S n) sbuf w) = false.
Proof.
  intros [b Hb] Hd HT. cbn [readData_loop]. destruct b.
  - destruct fuel as [|f]; [reflexivity|].
    unfold bind at 1.
    rewrite while_level_immediate by (try assumption; apply Hb; lia).
    unfold bind at 1. cbn [ets_delay_us].
    unfold bind at 1. cbn [gpio_get_level].
    apply returns_false_bind. apply while_level_stuck; [exact Hd|].
    cbn [now]. intros t Ht. apply Hb. lia.
  - apply returns_false_bind. apply while_level_stuck; [exact Hd|].
    intros t Ht. apply Hb. lia.
Qed.

Lemma readData_loop_split tpoll line fuel j n :
  forall sbuf w v w',
    readData_loop tpoll line fuel (j + n) sbuf w = Returned v w' ->
    exists s1 w1,
      readData_loop tpoll line fuel j sbuf w = Returned s1 w1 /\
      readData_loop tpoll line fuel n s1 w1 = Returned v w'.
Proof.
  induction j as [|j IH]; intros sbuf w v w' H.
  - exists sbuf, w. split; [reflexivity | exact H].
  - cbn [Nat.add readData_loop] in *.
    apply bind_returned_inv in H as (u1 & w1 & H1 & H).
    apply bind_returned_inv in H as (u2 & w2 & H2 & H).
    apply bind_returned_inv in H as (l & w3 & H3 & H).
    apply bind_returned_inv in H as (u4 & w4 & H4 & H).
    apply IH in H as (s1 & w5 & Ha & Hb).
    exists s1, w5. split; [|exact Hb].
    rewrite (bind_returned _ _ _ _ _ H1), (bind_returned _ _ _ _ _ H2),
      (bind_returned _ _ _ _ _ H3), (bind_returned _ _ _ _ _ H4).
    exact Ha.
Qed.

Lemma readBytes_split tpoll line fuel k m :
  forall w l w',
    readBytes tpoll line fuel (k + m) w = Returned l w' ->
    exists l1 l2 w1,
      readBytes tpoll line fuel k w = Returned l1 w1 /\
      readBytes tpoll line fuel m w1 = Returned l2 w' /\
      l = l1 ++ l2.
Proof.
  induction k as [|k IH]; intros w l w' H.
  - exists [], l, w. auto.
  - cbn [Nat.add readBytes] in *.
    apply bind_returned_inv in H as (b & w1 & H1 & H).
    apply bind_returned_inv in H as (bs & w2 & H2 & H).
    inversion H; subst. clear H.
    apply IH in H2 as (l1 & l2 & w3 & Ha & Hb & ->).
    exists (b :: l1), l2, w3. split; [|auto].
    rewrite (bind_returned _ _ _ _ _ H1), (bind_returned _ _ _ _ _ Ha).
    reflexivity.
Qed.

(** If the line has stopped changing by the time [k] bytes and [j]
    bits are in, the request does not return under any budget. *)
Lemma stalled_request_spins tpoll line T fuel0 k j sbuf w w1 :
  stalled line T ->
  k < 5 -> j < 8 ->
  received tpoll line fuel0 k j w = Returned sbuf w1 ->
  (T <= now w1)%N ->
  forall fuel currentData,
    returns (get_handler tpoll line fuel currentData w) = false.
Proof.
  intros Hst Hk Hj Hpre HT fuel currentData.
  destruct (get_handler tpoll line fuel currentData w) as [h w'|w'] eqn:E;
    [exfalso | reflexivity].
  apply get_handler_inv in E as (u1 & d & Es & Eg & _).
  apply getData_inv in Eg as (b0 & b1 & b2 & b3 & b4 & Eb & _).
  replace 5 with (k + S (4 - k)) in Eb by lia.
  apply readBytes_split in Eb as (l1 & l2 & u2 & Ek & Er & _).
  cbn [readBytes] in Er.
  apply bind_returned_inv in Er as (b & u3 & Er & _).
  unfold readData in Er.
  replace 8 with (j + S (7 - j)) in Er by lia.
  apply readData_loop_split in Er as (s & u4 & Ej & Er).
  unfold received in Hpre.
  apply bind_returned_inv in Hpre as (x0 & v0 & P0 & Hpre).
  cbn [gpio_pad_select_gpio] in P0. inversion P0; subst v0. clear P0.
  apply bind_returned_inv in Hpre as (x1 & v1 & P1 & Hpre).
  apply bind_returned_inv in Hpre as (x2 & v2 & P2 & P3).
  destruct (mono_same _ _ _ _ _ _ _ _ (mono_startSignal tpoll line) P1 Es)
    as (_ & ->).
  destruct (mono_same _ _ _ _ _ _ _ _ (mono_readBytes tpoll line k) P2 Ek)
    as (_ & ->).
  destruct (mono_same _ _ _ _ _ _ _ _
              (mono_readData_loop tpoll line j 0%Z) P3 Ej) as (_ & ->).
  assert (Hd : direction u4 = GPIO_MODE_INPUT).
  { destruct (quiet_returned _ _ _ _ (quiet_readData_loop tpoll line fuel j 0%Z) Ej)
      as (-> & _).
    destruct (quiet_returned _ _ _ _ (quiet_readBytes tpoll line fuel k) Ek)
      as (-> & _).
    pose proof (startSignal_outcome tpoll line fuel (pad_selected w)) as (D & _).
    rewrite Es in D. exact D. }
  pose proof (readData_loop_stalled tpoll line T fuel (7 - j) s u4 Hst Hd HT) as F.
  rewrite Er in F. discriminate.
Qed.

Lemma wave_idle segs idle :
  forall t, (total_len segs <= t)%N -> wave segs idle t = idle.
Proof.
  induction segs as [|[len lvl] segs IH]; intros t Ht; cbn [wave].
  - reflexivity.
  - cbn [total_len fold_right fst] in Ht. fold (total_len segs) in Ht.
    destruct (N.ltb_spec t len); [lia|].
    apply IH. lia.
Qed.

Lemma stall_line_stalled : stalled stall_line (total_len stall_pulses).
Proof. exists false. intros t Ht. now apply wave_idle. Qed.

Lemma result_of_not_returned {A} (o : outcome A) :
  returns o = false -> result o = None.
Proof. destruct o; [discriminate | reflexivity]. Qed.

(** C3, as the code has it: when from the switch to input on the line
    keeps one level, low or high, [startSignal] does not return under
    any budget of polls; it has no timeout and no error result. *)
Theorem startSignal_without_answer_never_returns tpoll line fuel w b :
  (forall t, (now w + 19 * 1000 + 30 <= t)%N -> line t = b) ->
  result (startSignal tpoll line fuel w) = None /\
  direction (final_world (startSignal tpoll line fuel w)) = GPIO_MODE_INPUT.
Proof.
  intro Hb. split.
  - apply result_of_not_returned. now apply startSignal_unanswered with (b := b).
  - apply startSignal_outcome.
Qed.

Lemma startSignal_without_answer_never_returns_witness :
  (forall t, (now power_on + 19 * 1000 + 30 <= t)%N -> line_low t = false) /\
  result (startSignal 1 line_low 1000 power_on) = None /\
  direction (final_world (startSignal 1 line_low 1000 power_on)) = GPIO_MODE_INPUT.
Proof.
  assert (H : forall t, (now power_on + 19 * 1000 + 30 <= t)%N ->
                        line_low t = false) by (intros; reflexivity).
  split; [exact H|].
  exact (startSignal_without_answer_never_returns 1 line_low 1000 power_on false H).
Defined.

(** C3 fails on the code: on a line that stays high there is no budget
    under which [startSignal] returns. *)
Lemma startSignal_line_high_no_timeout :
  ~ exists fuel, returns (startSignal 1 line_high fuel power_on) = true.
Proof.
  intros [fuel H].
  rewrite (startSignal_unanswered 1 line_high fuel power_on true) in H
    by (intros; reflexivity).
  discriminate.
Qed.

Lemma stall_point_reached :
  received 1 stall_line 100 1 2 power_on = Returned 2%Z (final_world stall_point).
Proof. vm_compute. reflexivity. Qed.

Lemma stall_point_late :
  (total_len stall_pulses <= now (final_world stall_point))%N.
Proof. apply N.leb_le. vm_compute. reflexivity. Qed.

(** A loop whose every poll finds the level it waits on does not
    return. *)
Lemma while_level_never_sees tpoll line lvl fuel :
  forall w,
    direction w = GPIO_MODE_INPUT ->
    (forall i : nat, line (now w + N.of_nat i * tpoll)%N = lvl) ->
    returns (while_level tpoll line lvl fuel w) = false.
Proof.
  induction fuel as [|f IH]; intros w Hd Hl; cbn [while_level].
  - reflexivity.
  - unfold bind at 1. cbn [gpio_get_level]. rewrite Hd.
    pose proof (Hl 0) as H0. change (N.of_nat 0 * tpoll)%N with 0%N in H0.
    rewrite N.add_0_r in H0. rewrite H0, Bool.eqb_reflx.
    apply IH; [reflexivity|]. cbn [now]. intro i.
    rewrite <- (Hl (S i)). f_equal.
    rewrite (Nat2N.inj_succ i), N.mul_succ_l. lia.
Qed.

Lemma mono_received tpoll line k j :
  mono (fun f => received tpoll line f k j).
Proof.
  unfold received.
  apply (mono_bind (fun _ => gpio_pad_select_gpio)); [apply mono_const | intros _].
  apply (mono_bind (fun f => startSignal tpoll line f));
    [apply mono_startSignal | intros _].
  apply (mono_bind (fun f => readBytes tpoll line f k));
    [apply mono_readBytes | intros _].
  apply mono_readData_loop.
Qed.

(** A request that returns has gone through every bit boundary. *)
Lemma get_handler_passes tpoll line fuel currentData w h w' k j :
  get_handler tpoll line fuel currentData w = Returned h w' ->
  k < 5 -> j < 8 ->
  exists s u v u',
    received tpoll line fuel k j w = Returned s u /\
    readData_loop tpoll line fuel (S (7 - j)) s u = Returned v u' /\
    direction u = GPIO_MODE_INPUT.
Proof.
  intros E Hk Hj.
  apply get_handler_inv in E as (u1 & d & Es & Eg & _).
  apply getData_inv in Eg as (b0 & b1 & b2 & b3 & b4 & Eb & _).
  replace 5 with (k + S (4 - k)) in Eb by lia.
  apply readBytes_split in Eb as (l1 & l2 & u2 & Ek & Er & _).
  cbn [readBytes] in Er.
  apply bind_returned_inv in Er as (b & u3 & Er & _).
  unfold readData in Er.
  replace 8 with (j + S (7 - j)) in Er by lia.
  apply readData_loop_split in Er as (s & u4 & Ej & Er).
  exists s, u4, b, u3. split; [|split; [exact Er|]].
  - unfold received. unfold bind at 1. cbn [gpio_pad_select_gpio].
    change (mkWorld (now w) (direction w) (driven w) (log PadSelect w))
      with (pad_selected w).
    rewrite (bind_returned _ _ _ _ _ Es), (bind_returned _ _ _ _ _ Ek).
    exact Ej.
  - destruct (quiet_returned _ _ _ _ (quiet_readData_loop tpoll line fuel j 0%Z) Ej)
      as (-> & _).
    destruct (quiet_returned _ _ _ _ (quiet_readBytes tpoll line fuel k) Ek)
      as (-> & _).
    pose proof (startSignal_outcome tpoll line fuel (pad_selected w)) as (D & _).
    rewrite Es in D. exact D.
Qed.

(** A request that has reached a bit-level wait whose edge never comes
    does not return under any budget. *)
Lemma waiting_request_spins tpoll line fuel0 k j in_pulse w w1 :
  k < 5 -> j < 8 ->
  waiting_at tpoll line fuel0 k j in_pulse w = Returned tt w1 ->
  (forall i : nat, line (now w1 + N.of_nat i * tpoll)%N = in_pulse) ->
  forall fuel currentData,
    returns (get_handler tpoll line fuel currentData w) = false.
Proof.
  intros Hk Hj Hpre Hline fuel currentData.
  destruct (get_handler tpoll line fuel currentData w) as [h w'|w'] eqn:E;
    [exfalso | reflexivity].
  destruct (get_handler_passes _ _ _ _ _ _ _ k j E Hk Hj)
    as (s & u & v & u' & Er & El & Hd).
  unfold waiting_at in Hpre.
  apply bind_returned_inv in Hpre as (s0 & u0 & P0 & Hpre).
  destruct (mono_same _ _ _ _ _ _ _ _ (mono_received tpoll line k j) P0 Er)
    as (_ & ->).
  destruct in_pulse.
  - apply bind_returned_inv in Hpre as (a1 & x1 & A1 & Hpre).
    apply bind_returned_inv in Hpre as (a2 & x2 & A2 & Hpre).
    apply bind_returned_inv in Hpre as (l & x3 & A3 & Hpre).
    inversion Hpre; subst w1. clear Hpre.
    cbn [readData_loop] in El.
    apply bind_returned_inv in El as (c1 & y1 & B1 & El).
    apply bind_returned_inv in El as (c2 & y2 & B2 & El).
    apply bind_returned_inv in El as (l' & y3 & B3 & El).
    apply bind_returned_inv in El as (c4 & y4 & B4 & _).
    destruct (mono_same _ _ _ _ _ _ _ _ (mono_while_level tpoll line false) A1 B1)
      as (_ & ->).
    rewrite A2 in B2. inversion B2; subst y2.
    rewrite A3 in B3. inversion B3; subst y3 l'.
    assert (Hd3 : direction x3 = GPIO_MODE_INPUT).
    { destruct (quiet_returned _ _ _ _ (quiet_gpio_get_level tpoll line) A3)
        as (-> & _).
      destruct (quiet_returned _ _ _ _ (quiet_ets_delay_us 30) A2) as (-> & _).
      destruct (quiet_returned _ _ _ _ (quiet_while_level tpoll line false fuel) B1)
        as (-> & _).
      exact Hd. }
    pose proof (while_level_never_sees tpoll line true fuel x3 Hd3 Hline) as F.
    rewrite B4 in F. discriminate.
  - inversion Hpre; subst w1. clear Hpre.
    cbn [readData_loop] in El.
    apply bind_returned_inv in El as (c1 & y1 & B1 & _).
    pose proof (while_level_never_sees tpoll line false fuel u Hd Hline) as F.
    rewrite B1 in F. discriminate.
Qed.

(** C4, as the code has it: when the request is in a bit-level wait,
    for the rising edge that starts a pulse ([in_pulse = false], the
    line stays low) or for the falling edge that ends it
    ([in_pulse = true], the line stays high), and that edge never
    arrives (every poll of the wait, one each [tpoll] microseconds,
    finds the level waited on), the request does not return under any
    budget of polls: there is no timeout error, and no record and no
    page are produced. *)
Theorem stalled_sensor_request_never_returns
    tpoll line fuel0 k j in_pulse w w1 fuel currentData :
  k < 5 -> j < 8 ->
  waiting_at tpoll line fuel0 k j in_pulse w = Returned tt w1 ->
  (forall i : nat, line (now w1 + N.of_nat i * tpoll)%N = in_pulse) ->
  result (get_handler tpoll line fuel currentData w) = None.
Proof.
  intros Hk Hj Hpre Hline. apply result_of_not_returned.
  exact (waiting_request_spins tpoll line fuel0 k j in_pulse w w1
           Hk Hj Hpre Hline fuel currentData).
Qed.

Lemma released_point_reached :
  waiting_at 1 released_line 100 1 1 true power_on =
  Returned tt (final_world released_point).
Proof. vm_compute. reflexivity. Qed.

Lemma released_line_stays_high (i : nat) :
  released_line (now (final_world released_point) + N.of_nat i * 1)%N = true.
Proof.
  apply wave_idle.
  assert (H : (total_len released_pulses <= now (final_world released_point))%N)
    by (apply N.leb_le; vm_compute; reflexivity).
  lia.
Qed.

Lemma stalled_sensor_request_never_returns_witness :
  1 < 5 /\ 1 < 8 /\
  waiting_at 1 released_line 100 1 1 true power_on =
    Returned tt (final_world released_point) /\
  (forall i : nat,
      released_line (now (final_world released_point) + N.of_nat i * 1)%N
      = true) /\
  result (get_handler 1 released_line 1000 (mkData 7 7 7) power_on) = None.
Proof.
  assert (H1 : 1 < 5) by lia.
  assert (H2 : 1 < 8) by lia.
  split; [exact H1|]. split; [exact H2|].
  split; [exact released_point_reached|].
  split; [exact released_line_stays_high|].
  exact (stalled_sensor_request_never_returns 1 released_line 100 1 1 true
           power_on (final_world released_point) 1000 (mkData 7 7 7)
           H1 H2 released_point_reached released_line_stays_high).
Defined.

(** C4 fails on the code: on the line that stalls after one byte and
    two bits there is no budget under which the request returns, so no
    timeout error is ever reported. *)
Lemma stalled_request_no_timeout :
  ~ exists fuel,
      returns (get_handler 1 stall_line fuel (mkData 0 0 0) power_on) = true.
Proof.
  intros [fuel H].
  assert (H1 : 1 < 5) by lia.
  assert (H2 : 2 < 8) by lia.
  rewrite (stalled_request_spins 1 stall_line (total_len stall_pulses)
             100 1 2 2%Z power_on (final_world stall_point)
             stall_line_stalled H1 H2 stall_point_reached stall_point_late
             fuel (mkData 0 0 0)) in H.
  discriminate.
Qed.

(** ** Decoding the pulses *)

Lemma steadyb_steady line lvl a len :
  steadyb line lvl a len = true -> steady line lvl a (a + N.of_nat len).
Proof.
  unfold steadyb, steady. intros H t Ht.
  rewrite forallb_forall in H.
  specialize (H (N.to_nat (t - a))).
  rewrite N2Nat.id in H.
  replace (a + (t - a))%N with t in H by lia.
  apply Bool.eqb_prop. apply H. apply in_seq. lia.
Qed.

Lemma encodesb_gap line t0 bits :
  encodesb line t0 bits = true -> steady line false t0 (t0 + 50).
Proof.
  intro H. apply (steadyb_steady line false t0 50).
  destruct bits; cbn [encodesb] in H; [exact H|].
  now apply andb_prop in H.
Qed.

(** A wait loop entered before, or inside, the stretch where the line
    has the other level leaves at the first poll [p] that falls in it. *)
Lemma while_level_exits tpoll line lvl e hi fuel :
  forall w,
    (0 < tpoll)%N ->
    direction w = GPIO_MODE_INPUT ->
    steady line lvl (now w) e ->
    steady line (negb lvl) e hi ->
    (e + tpoll <= hi)%N ->
    (now w < hi)%N ->
    N.to_nat (e - now w) < fuel ->
    exists w' p,
      while_level tpoll line lvl fuel w = Returned tt w' /\
      direction w' = GPIO_MODE_INPUT /\
      now w' = (p + tpoll)%N /\
      (e <= p)%N /\ (now w <= p)%N /\
      ((p < e + tpoll)%N \/ p = now w).
Proof.
  induction fuel as [|f IH]; intros w Htp Hd Hlo Hhi Hfit Hnow Hfuel; [lia|].
  destruct (N.le_gt_cases e (now w)) as [Hin|Hout].
  - rewrite while_level_immediate by (try assumption; apply Hhi; lia).
    eexists _, (now w). split; [reflexivity|]. cbn [direction now].
    repeat split; try assumption; try lia.
  - cbn [while_level]. unfold bind at 1. cbn [gpio_get_level].
    rewrite Hd, (Hlo (now w)) by lia. rewrite Bool.eqb_reflx.
    destruct (IH (mkWorld (now w + tpoll) GPIO_MODE_INPUT (driven w)
                          (log (GetLevel lvl) w)))
      as (w' & p & E & D & Np & He & Hn & Hp); cbn [now direction];
      try assumption; try reflexivity; try lia.
    + intros t Ht. apply Hlo. lia.
    + cbn [now] in Hn, Hp.
      exists w', p. repeat split; try assumption; lia.
Qed.

(** One turn of the loop of [readData] on a well-formed bit. *)
Lemma read_bit {A} tpoll line fuel t0 (b : bool) h (K : bool -> M A) w :
  (1 <= tpoll <= 10)%N ->
  70 < fuel ->
  (if b then h = 70 else 26 <= h <= 28)%N ->
  steady line false t0 (t0 + 50) ->
  steady line true (t0 + 50) (t0 + 50 + h) ->
  steady line false (t0 + 50 + h) (t0 + 50 + h + 50) ->
  direction w = GPIO_MODE_INPUT ->
  (t0 <= now w < t0 + 50)%N ->
  exists w',
    (while_level tpoll line false fuel ;;
     ets_delay_us 30 ;;
     l <- gpio_get_level tpoll line ;;
     while_level tpoll line true fuel ;;
     K l) w = K b w' /\
    direction w' = GPIO_MODE_INPUT /\
    (t0 + 50 + h <= now w' < t0 + 50 + h + 50)%N.
Proof.
  intros Htp Hfuel Hh Hgap Hpulse Hnext Hd Hnow.
  assert (Hh' : (26 <= h <= 70)%N) by (destruct b; lia).
  destruct (while_level_exits tpoll line false (t0 + 50) (t0 + 50 + h) fuel w)
    as (w1 & p1 & E1 & D1 & N1 & He1 & Hn1 & Hp1);
    try assumption; try lia.
  { intros t Ht. apply Hgap. lia. }
  assert (Hp1' : (p1 < t0 + 50 + tpoll)%N) by lia. clear Hp1.
  unfold bind at 1. rewrite E1.
  unfold bind at 1. cbn [ets_delay_us].
  unfold bind at 1. cbn [gpio_get_level direction now driven trace].
  rewrite D1.
  set (w3 := mkWorld _ _ _ _).
  assert (Hl : line (now w1 + 30)%N = b).
  { destruct b.
    - apply Hpulse. lia.
    - apply Hnext. lia. }
  rewrite Hl.
  assert (X : exists w4 p4,
             while_level tpoll line true fuel w3 = Returned tt w4 /\
             direction w4 = GPIO_MODE_INPUT /\
             now w4 = (p4 + tpoll)%N /\
             (t0 + 50 + h <= p4)%N /\ (now w3 <= p4)%N /\
             ((p4 < t0 + 50 + h + tpoll)%N \/ p4 = now w3)).
  { apply while_level_exits with (hi := (t0 + 50 + h + 50)%N);
      unfold w3; cbn [now direction];
      try assumption; try reflexivity; try lia.
    intros t Ht. apply Hpulse. lia. }
  destruct X as (w4 & p4 & E4 & D4 & N4 & He4 & Hn4 & Hp4).
  exists w4. unfold bind at 1. rewrite E4.
  split; [reflexivity|]. split; [exact D4|].
  unfold w3 in Hn4, Hp4. cbn [now] in Hn4, Hp4. destruct b; lia.
Qed.

Lemma readData_loop_decodes tpoll line fuel :
  (1 <= tpoll <= 10)%N ->
  70 < fuel ->
  forall bits t0 sbuf w,
    encodesb line t0 bits = true ->
    direction w = GPIO_MODE_INPUT ->
    (t0 <= now w < t0 + 50)%N ->
    exists w',
      readData_loop tpoll line fuel (List.length bits) sbuf w =
        Returned (shift_in bits sbuf) w' /\
      direction w' = GPIO_MODE_INPUT.
Proof.
  intros Htp Hfuel.
  induction bits as [|b rest IH]; intros t0 sbuf w Henc Hd Hnow.
  - exists w. split; [reflexivity | exact Hd].
  - pose proof (encodesb_gap _ _ _ Henc) as Hgap.
    cbn [encodesb] in Henc. apply andb_prop in Henc as [_ Henc].
    apply existsb_exists in Henc as (h & Hin & Hh).
    apply andb_prop in Hh as [Hpulse Hrest].
    apply steadyb_steady in Hpulse.
    pose proof (encodesb_gap _ _ _ Hrest) as Hnext.
    assert (Hw : (if b then N.of_nat h = 70 else 26 <= N.of_nat h <= 28)%N).
    { destruct b; cbn in Hin; intuition (subst; cbn; lia). }
    cbn [List.length readData_loop].
    destruct (read_bit tpoll line fuel t0 b (N.of_nat h)
                (fun l => readData_loop tpoll line fuel (List.length rest)
                            (if l then Z.lor (Z.shiftl sbuf 1 mod 256) 1
                             else Z.lor (Z.shiftl sbuf 1 mod 256) 0)) w)
      as (w1 & E1 & D1 & N1); try assumption.
    cbv zeta. rewrite E1.
    destruct (IH (t0 + 50 + N.of_nat h)%N
                 (if b then Z.lor (Z.shiftl sbuf 1 mod 256) 1
                  else Z.lor (Z.shiftl sbuf 1 mod 256) 0) w1 Hrest D1 N1)
      as (w2 & E2 & D2).
    exists w2. split; [|exact D2].
    rewrite E2. unfold shift_in. cbn [fold_left]. destruct b; reflexivity.
Qed.

Lemma shift_in_bits_of_byte v :
  (0 <= v < 256)%Z -> shift_in (bits_of_byte v) 0 = v.
Proof.
  intro Hv.
  assert (H : forallb (fun n => (shift_in (bits_of_byte (Z.of_nat n)) 0
                                 =? Z.of_nat n)%Z)
                      (seq 0 256) = true) by (vm_compute; reflexivity).
  rewrite forallb_forall in H.
  specialize (H (Z.to_nat v)). rewrite Z2Nat.id in H by lia.
  apply Z.eqb_eq. apply H. apply in_seq. lia.
Qed.

(** C2: on a line that carries the eight bits of [v], most significant
    first, each as a 50 us low gap followed by a high pulse of 26 to
    28 us for a 0 and of 70 us for a 1, [readData] entered during the
    first gap returns exactly [v]. *)
Theorem readData_decodes_pulse_train tpoll line fuel t0 v w :
  (1 <= tpoll <= 10)%N ->
  70 < fuel ->
  (0 <= v < 256)%Z ->
  encodesb line t0 (bits_of_byte v) = true ->
  direction w = GPIO_MODE_INPUT ->
  (t0 <= now w < t0 + 50)%N ->
  result (readData tpoll line fuel w) = Some v.
Proof.
  intros Htp Hfuel Hv Henc Hd Hnow.
  destruct (readData_loop_decodes tpoll line fuel Htp Hfuel
              (bits_of_byte v) t0 0%Z w Henc Hd Hnow) as (w' & E & _).
  change (List.length (bits_of_byte v)) with 8 in E.
  unfold readData. rewrite E. cbn [result].
  now rewrite shift_in_bits_of_byte.
Qed.

Lemma readData_decodes_pulse_train_witness :
  (1 <= 1 <= 10)%N /\ 70 < 100 /\ (0 <= 165 < 256)%Z /\
  encodesb a5_line 0 (bits_of_byte 165) = true /\
  direction (listening 0) = GPIO_MODE_INPUT /\
  (0 <= now (listening 0) < 0 + 50)%N /\
  result (readData 1 a5_line 100 (listening 0)) = Some 165%Z.
Proof.
  assert (H1 : (1 <= 1 <= 10)%N) by lia.
  assert (H2 : 70 < 100) by lia.
  assert (H3 : (0 <= 165 < 256)%Z) by lia.
  assert (H4 : encodesb a5_line 0 (bits_of_byte 165) = true)
    by (vm_compute; reflexivity).
  assert (H5 : direction (listening 0) = GPIO_MODE_INPUT) by reflexivity.
  assert (H6 : (0 <= now (listening 0) < 0 + 50)%N) by (cbn; lia).
  repeat (split; [assumption|]).
  exact (readData_decodes_pulse_train 1 a5_line 100 0 165 (listening 0)
           H1 H2 H3 H4 H5 H6).
Defined.

(** ** More on the record and the page *)

Lemma getData_fields_range tpoll line fuel temp w d w' :
  getData tpoll line fuel temp w = Returned d w' ->
  (0 <= temperature d < 256)%Z /\ (0 <= humidity d < 256)%Z.
Proof.
  intro H. apply getData_inv in H as (b0 & b1 & b2 & b3 & b4 & H & ->).
  apply readBytes_5_range in H as (R0 & _ & R2 & _).
  rewrite getData_store_fields. cbn [temperature humidity]. auto.
Qed.

(** X1: whatever the line does, the temperature and the humidity of a
    record filled by [getData] lie between 0 and 255. *)
Theorem getData_fields_are_bytes tpoll line fuel temp w d w' :
  getData tpoll line fuel temp w = Returned d w' ->
  (0 <= temperature d < 256)%Z /\ (0 <= humidity d < 256)%Z.
Proof. apply getData_fields_range. Qed.

Lemma getData_fields_are_bytes_witness :
  getData 1 wrap_frame 100 (mkData (-1) (-1) (-1)) (listening 0) =
    Returned (mkData 100 200 1) (after_frame wrap_frame) /\
  (0 <= 100 < 256)%Z /\ (0 <= 200 < 256)%Z.
Proof.
  assert (H : getData 1 wrap_frame 100 (mkData (-1) (-1) (-1)) (listening 0) =
              Returned (mkData 100 200 1) (after_frame wrap_frame))
    by (vm_compute; reflexivity).
  split; [exact H|].
  exact (getData_fields_are_bytes 1 wrap_frame 100 (mkData (-1) (-1) (-1))
           (listening 0) (mkData 100 200 1) (after_frame wrap_frame) H).
Defined.

(** X2: [getData] stores status 0 exactly for the frames whose checksum
    byte is the sum of the four data bytes modulo 256 and whose data
    bytes add up to less than 256; so it never accepts a frame the
    modular checksum rejects. *)
Theorem getData_status_zero_iff tpoll line fuel temp w b0 b1 b2 b3 b4 w' :
  readBytes tpoll line fuel 5 w = Returned [b0; b1; b2; b3; b4] w' ->
  exists d,
    getData tpoll line fuel temp w = Returned d w' /\
    (status d = 0%Z <->
     (b4 = (b0 + b1 + b2 + b3) mod 256 /\ b0 + b1 + b2 + b3 < 256)%Z).
Proof.
  intro H. exists (getData_store b0 b1 b2 b3 b4 temp).
  split; [now apply getData_of_readBytes|].
  rewrite getData_store_status.
  pose proof (readBytes_5_range _ _ _ _ _ _ _ _ _ _ H)
    as (R0 & R1 & R2 & R3 & R4).
  split.
  - intros ->. rewrite Z.mod_small by lia. lia.
  - intros [E Hlt]. rewrite Z.mod_small in E by lia. exact E.
Qed.

Lemma getData_status_zero_iff_witness :
  readBytes 1 wrap_frame 100 5 (listening 0) =
    Returned [200; 0; 100; 0; 44]%Z (after_frame wrap_frame) /\
  exists d,
    getData 1 wrap_frame 100 (mkData 7 7 7) (listening 0) =
      Returned d (after_frame wrap_frame) /\
    (status d = 0%Z <->
     (44 = (200 + 0 + 100 + 0) mod 256 /\ 200 + 0 + 100 + 0 < 256)%Z).
Proof.
  assert (H : readBytes 1 wrap_frame 100 5 (listening 0) =
              Returned [200; 0; 100; 0; 44]%Z (after_frame wrap_frame))
    by (vm_compute; reflexivity).
  split; [exact H|].
  exact (getData_status_zero_iff 1 wrap_frame 100 (mkData 7 7 7)
           (listening 0) 200 0 100 0 44 (after_frame wrap_frame) H).
Defined.

Lemma string_length_app (s1 s2 : string) :
  String.length (s1 ++ s2) = String.length s1 + String.length s2.
Proof. induction s1 as [|c s1 IH]; cbn; [reflexivity | now rewrite IH]. Qed.

Lemma fmt_d_byte_length z :
  (0 <= z < 256)%Z -> String.length (fmt_d z) <= 3.
Proof.
  intro Hz.
  assert (H : forallb (fun n => String.length (fmt_d (Z.of_nat n)) <=? 3)
                      (seq 0 256) = true) by (vm_compute; reflexivity).
  rewrite forallb_forall in H.
  specialize (H (Z.to_nat z)). rewrite Z2Nat.id in H by lia.
  apply Nat.leb_le. apply H. apply in_seq. lia.
Qed.

Lemma htmlPage_length t h :
  String.length (htmlPage t h) =
  299 + String.length (fmt_d t) + String.length (fmt_d h).
Proof.
  unfold htmlPage. generalize (fmt_d t) (fmt_d h). intros s1 s2.
  rewrite !string_length_app. unfold lf. cbn [String.length]. lia.
Qed.

(** X3: the page [get_handler] formats with [sprintf] is always
    shorter than [BUFFERSIZE], so it fits [htmlPage] with its
    terminating zero: the two numbers printed have at most three
    digits each. *)
Theorem get_handler_page_fits_buffer tpoll line fuel currentData w h w' :
  get_handler tpoll line fuel currentData w = Returned h w' ->
  String.length (response h) < BUFFERSIZE /\
  String.length (response h) <= 305.
Proof.
  intro H. apply get_handler_inv in H as (w1 & d & _ & Hg & ->).
  apply getData_fields_range in Hg as (Rt & Rh).
  cbn [response]. rewrite htmlPage_length.
  pose proof (fmt_d_byte_length _ Rt). pose proof (fmt_d_byte_length _ Rh).
  unfold BUFFERSIZE. lia.
Qed.

Lemma get_handler_page_fits_buffer_witness :
  get_handler 1 bad_answer 100 (mkData 7 7 7) power_on =
    Returned bad_page (final_world bad_request) /\
  String.length (response bad_page) < BUFFERSIZE /\
  String.length (response bad_page) <= 305.
Proof.
  assert (E : get_handler 1 bad_answer 100 (mkData 7 7 7) power_on =
              Returned bad_page (final_world bad_request))
    by (vm_compute; reflexivity).
  split; [exact E|].
  exact (get_handler_page_fits_buffer 1 bad_answer 100 (mkData 7 7 7) power_on
           bad_page (final_world bad_request) E).
Defined.

(** ** The handshake, answered *)

(** After the switch to input: low until [a], high until [b], low
    for a poll at least. *)
Lemma startSignal_response tpoll line fuel w a b :
  (1 <= tpoll)%N ->
  (now w + 19030 <= a)%N ->
  (a + tpoll <= b)%N ->
  steady line false (now w + 19030) a ->
  steady line true a b ->
  steady line false b (b + tpoll) ->
  N.to_nat (b - (now w + 19030)) < fuel ->
  exists w',
    startSignal tpoll line fuel w = Returned tt w' /\
    direction w' = GPIO_MODE_INPUT /\
    (b + tpoll <= now w' < b + 2 * tpoll)%N.
Proof.
  intros Htp Ha Hab Hlo Hhigh Htail Hfuel.
  rewrite startSignal_waits.
  assert (X1 : exists w1 p1,
             while_level tpoll line false fuel (after_handshake w) =
               Returned tt w1 /\
             direction w1 = GPIO_MODE_INPUT /\
             now w1 = (p1 + tpoll)%N /\
             (a <= p1)%N /\
             (now (after_handshake w) <= p1)%N /\
             ((p1 < a + tpoll)%N \/ p1 = now (after_handshake w))).
  { apply while_level_exits with (hi := b);
      cbn [after_handshake now direction];
      try assumption; try reflexivity; try lia.
    intros t Ht. apply Hlo. lia. }
  destruct X1 as (w1 & p1 & E1 & D1 & N1 & He1 & Hn1 & Hp1).
  cbn [after_handshake now] in Hn1, Hp1.
  assert (X2 : exists w2 p2,
             while_level tpoll line true fuel w1 = Returned tt w2 /\
             direction w2 = GPIO_MODE_INPUT /\
             now w2 = (p2 + tpoll)%N /\
             (b <= p2)%N /\ (now w1 <= p2)%N /\
             ((p2 < b + tpoll)%N \/ p2 = now w1)).
  { apply while_level_exits with (hi := (b + tpoll)%N);
      try assumption; try lia.
    intros t Ht. apply Hhigh. lia. }
  destruct X2 as (w2 & p2 & E2 & D2 & N2 & He2 & Hn2 & Hp2).
  exists w2. unfold bind. rewrite E1, E2.
  split; [reflexivity|]. split; [exact D2|]. lia.
Qed.

(** X4: if, from the switch to input on, the line is low for [lo] us
    (possibly none), then high for [hi] us (long enough to be polled),
    then low, [startSignal] returns, and it returns within two polls of
    that falling edge.  With [lo = 0] the line is still high at the
    switch: the first loop is left at once and the call returns at the
    first falling edge it meets. *)
Theorem startSignal_returns_after_response tpoll line fuel w lo hi :
  (1 <= tpoll)%N ->
  (tpoll <= N.of_nat hi)%N ->
  steadyb line false (now w + 19030)%N lo = true ->
  steadyb line true (now w + 19030 + N.of_nat lo)%N hi = true ->
  steadyb line false (now w + 19030 + N.of_nat lo + N.of_nat hi)%N
          (N.to_nat tpoll) = true ->
  lo + hi < fuel ->
  exists w',
    startSignal tpoll line fuel w = Returned tt w' /\
    direction w' = GPIO_MODE_INPUT /\
    (now w + 19030 + N.of_nat lo + N.of_nat hi + tpoll <= now w' <
     now w + 19030 + N.of_nat lo + N.of_nat hi + 2 * tpoll)%N.
Proof.
  intros Htp Hhi Hlo Hhigh Htail Hfuel.
  apply steadyb_steady in Hlo, Hhigh, Htail.
  rewrite N2Nat.id in Htail.
  apply startSignal_response with (a := (now w + 19030 + N.of_nat lo)%N);
    try assumption; lia.
Qed.

Lemma startSignal_returns_after_response_witness :
  (1 <= 1)%N /\ (1 <= N.of_nat 80)%N /\
  steadyb bad_answer false (now power_on + 19030)%N 70 = true /\
  steadyb bad_answer true (now power_on + 19030 + N.of_nat 70)%N 80 = true /\
  steadyb bad_answer false (now power_on + 19030 + N.of_nat 70 + N.of_nat 80)%N
          (N.to_nat 1) = true /\
  70 + 80 < 200 /\
  exists w',
    startSignal 1 bad_answer 200 power_on = Returned tt w' /\
    direction w' = GPIO_MODE_INPUT /\
    (now power_on + 19030 + N.of_nat 70 + N.of_nat 80 + 1 <= now w' <
     now power_on + 19030 + N.of_nat 70 + N.of_nat 80 + 2 * 1)%N.
Proof.
  assert (H1 : (1 <= 1)%N) by lia.
  assert (H2 : (1 <= N.of_nat 80)%N) by lia.
  assert (H3 : steadyb bad_answer false (now power_on + 19030)%N 70 = true)
    by (vm_compute; reflexivity).
  assert (H4 : steadyb bad_answer true
                 (now power_on + 19030 + N.of_nat 70)%N 80 = true)
    by (vm_compute; reflexivity).
  assert (H5 : steadyb bad_answer false
                 (now power_on + 19030 + N.of_nat 70 + N.of_nat 80)%N
                 (N.to_nat 1) = true)
    by (vm_compute; reflexivity).
  assert (H6 : 70 + 80 < 200) by lia.
  repeat (split; [assumption|]).
  exact (startSignal_returns_after_response 1 bad_answer 200 power_on 70 80
           H1 H2 H3 H4 H5 H6).
Defined.

(** ** How long a request takes *)

Lemma while_level_takes tpoll line lvl fuel :
  forall w u w',
    while_level tpoll line lvl fuel w = Returned u w' ->
    (now w + tpoll <= now w')%N.
Proof.
  induction fuel as [|f IH]; intros w u w' H; [discriminate|].
  cbn [while_level] in H. unfold bind at 1 in H. cbn [gpio_get_level] in H.
  destruct (Bool.eqb _ lvl).
  - apply IH in H. cbn [now] in H. lia.
  - inversion H; subst. cbn [now]. lia.
Qed.

Lemma readData_loop_takes tpoll line fuel n :
  forall sbuf w v w',
    readData_loop tpoll line fuel n sbuf w = Returned v w' ->
    (now w + N.of_nat n * (30 + 3 * tpoll) <= now w')%N.
Proof.
  induction n as [|n IH]; intros sbuf w v w' H.
  - inversion H; subst. cbn. lia.
  - cbn [readData_loop] in H.
    apply bind_returned_inv in H as (u1 & w1 & H1 & H).
    apply bind_returned_inv in H as (u2 & w2 & H2 & H).
    apply bind_returned_inv in H as (l & w3 & H3 & H).
    apply bind_returned_inv in H as (u4 & w4 & H4 & H).
    apply while_level_takes in H1, H4. apply IH in H.
    inversion H2; subst w2. inversion H3; subst w3. cbn [now] in *.
    lia.
Qed.

Lemma readData_takes tpoll line fuel w v w' :
  readData tpoll line fuel w = Returned v w' ->
  (now w + 8 * (30 + 3 * tpoll) <= now w')%N.
Proof.
  intro H. apply readData_loop_takes in H.
  change (N.of_nat 8) with 8%N in H. lia.
Qed.

(** X5: a request that is answered has kept the caller for at least
    the 19030 us of the start signal, two polls of the response, and
    forty bits of at least 30 us and three polls each: more than 20 ms
    whatever the sensor does. *)
Theorem get_handler_takes_at_least tpoll line fuel currentData w h w' :
  get_handler tpoll line fuel currentData w = Returned h w' ->
  (now w + 19030 + 2 * tpoll + 40 * (30 + 3 * tpoll) <= now w')%N /\
  (now w + 20230 <= now w')%N.
Proof.
  intro H. apply get_handler_inv in H as (w1 & d & Hs & Hg & _).
  rewrite startSignal_waits in Hs.
  apply bind_returned_inv in Hs as (u1 & v1 & Ha & Hb).
  apply while_level_takes in Ha, Hb. cbn [after_handshake pad_selected now] in Ha.
  apply getData_inv in Hg as (b0 & b1 & b2 & b3 & b4 & Hr & _).
  apply readBytes_5_inv in Hr
    as (c0 & c1 & c2 & c3 & c4 & u2 & u3 & u4 & u5 & _ & R0 & R1 & R2 & R3 & R4).
  apply readData_takes in R0, R1, R2, R3, R4.
  lia.
Qed.

Lemma get_handler_takes_at_least_witness :
  get_handler 1 bad_answer 100 (mkData 7 7 7) power_on =
    Returned bad_page (final_world bad_request) /\
  (now power_on + 19030 + 2 * 1 + 40 * (30 + 3 * 1)
     <= now (final_world bad_request))%N /\
  (now power_on + 20230 <= now (final_world bad_request))%N.
Proof.
  assert (E : get_handler 1 bad_answer 100 (mkData 7 7 7) power_on =
              Returned bad_page (final_world bad_request))
    by (vm_compute; reflexivity).
  split; [exact E|].
  exact (get_handler_takes_at_least 1 bad_answer 100 (mkData 7 7 7) power_on
           bad_page (final_world bad_request) E).
Defined.

(** ** Pulses of any widths *)

Lemma pulse_train_gap line t0 ps tail :
  pulse_train line t0 ps tail = true ->
  steady line false t0 (t0 + N.of_nat (first_gap ps tail)).
Proof.
  intro H. apply steadyb_steady.
  destruct ps as [|[g h] rest]; cbn [pulse_train first_gap] in *; [exact H|].
  apply andb_prop in H as [H _]. now apply andb_prop in H.
Qed.

(** One turn of the loop of [readData] on a pulse of any width. *)
Lemma read_pulse {A} tpoll line fuel t0 g h g' (K : bool -> M A) w :
  (1 <= tpoll)%N ->
  (tpoll <= h)%N ->
  (h <= 30 + tpoll \/ 30 + 2 * tpoll <= h)%N ->
  (30 + 4 * tpoll <= h + g')%N ->
  (2 * tpoll <= g')%N ->
  N.to_nat g < fuel ->
  N.to_nat h < fuel ->
  steady line false t0 (t0 + g) ->
  steady line true (t0 + g) (t0 + g + h) ->
  steady line false (t0 + g + h) (t0 + g + h + g') ->
  direction w = GPIO_MODE_INPUT ->
  (t0 <= now w < t0 + g)%N ->
  exists w',
    (while_level tpoll line false fuel ;;
     ets_delay_us 30 ;;
     l <- gpio_get_level tpoll line ;;
     while_level tpoll line true fuel ;;
     K l) w = K (30 + 2 * tpoll <=? h)%N w' /\
    direction w' = GPIO_MODE_INPUT /\
    (t0 + g + h <= now w' < t0 + g + h + g')%N.
Proof.
  intros Htp Hmin Hcl Hroom Hgap' Hfg Hfh Hgap Hpulse Hnext Hd Hnow.
  assert (X1 : exists w1 p1,
             while_level tpoll line false fuel w = Returned tt w1 /\
             direction w1 = GPIO_MODE_INPUT /\
             now w1 = (p1 + tpoll)%N /\
             (t0 + g <= p1)%N /\ (now w <= p1)%N /\
             ((p1 < t0 + g + tpoll)%N \/ p1 = now w)).
  { apply while_level_exits with (hi := (t0 + g + h)%N);
      try assumption; try lia.
    intros t Ht. apply Hgap. lia. }
  destruct X1 as (w1 & p1 & E1 & D1 & N1 & He1 & Hn1 & Hp1).
  assert (Hp1' : (p1 < t0 + g + tpoll)%N) by lia. clear Hp1.
  unfold bind at 1. rewrite E1.
  unfold bind at 1. cbn [ets_delay_us].
  unfold bind at 1. cbn [gpio_get_level direction now driven trace].
  rewrite D1.
  set (w3 := mkWorld _ _ _ _).
  assert (Hl : line (now w1 + 30)%N = (30 + 2 * tpoll <=? h)%N).
  { destruct (N.leb_spec (30 + 2 * tpoll) h).
    - apply Hpulse. lia.
    - apply Hnext. lia. }
  rewrite Hl.
  assert (X2 : exists w4 p4,
             while_level tpoll line true fuel w3 = Returned tt w4 /\
             direction w4 = GPIO_MODE_INPUT /\
             now w4 = (p4 + tpoll)%N /\
             (t0 + g + h <= p4)%N /\ (now w3 <= p4)%N /\
             ((p4 < t0 + g + h + tpoll)%N \/ p4 = now w3)).
  { apply while_level_exits with (hi := (t0 + g + h + g')%N);
      unfold w3; cbn [now direction];
      try assumption; try reflexivity; try lia.
    intros t Ht. apply Hpulse. lia. }
  destruct X2 as (w4 & p4 & E4 & D4 & N4 & He4 & Hn4 & Hp4).
  exists w4. unfold bind at 1. rewrite E4.
  split; [reflexivity|]. split; [exact D4|].
  unfold w3 in Hn4, Hp4. cbn [now] in Hn4, Hp4. lia.
Qed.

Lemma readData_loop_pulses tpoll line fuel tail :
  (1 <= tpoll)%N ->
  forall ps t0 sbuf w,
    clear_pulses tpoll ps tail = true ->
    within_budget fuel ps = true ->
    pulse_train line t0 ps tail = true ->
    direction w = GPIO_MODE_INPUT ->
    (t0 <= now w < t0 + N.of_nat (first_gap ps tail))%N ->
    exists w',
      readData_loop tpoll line fuel (List.length ps) sbuf w =
        Returned (shift_in (map (fun p => reads_as tpoll (snd p)) ps) sbuf) w' /\
      direction w' = GPIO_MODE_INPUT /\
      (t0 + train_len ps <= now w' < t0 + train_len ps + N.of_nat tail)%N.
Proof.
  intros Htp.
  induction ps as [|[g h] rest IH]; intros t0 sbuf w Hcl Hbud Htr Hd Hnow.
  - exists w. cbn [first_gap] in Hnow. cbn [train_len fold_right].
    split; [reflexivity|]. split; [exact Hd | lia].
  - cbn [first_gap] in Hnow.
    pose proof (pulse_train_gap _ _ _ _ Htr) as Hgap. cbn [first_gap] in Hgap.
    cbn [pulse_train] in Htr.
    apply andb_prop in Htr as [Htr Hrest]. apply andb_prop in Htr as [_ Hpulse].
    apply steadyb_steady in Hpulse.
    pose proof (pulse_train_gap _ _ _ _ Hrest) as Hnext.
    cbn [clear_pulses] in Hcl.
    apply andb_prop in Hcl as [Hcl Hclr]. apply andb_prop in Hcl as [Hcl C4].
    apply andb_prop in Hcl as [Hcl C3]. apply andb_prop in Hcl as [C1 C2].
    apply N.leb_le in C1, C3, C4.
    assert (C2' : (N.of_nat h <= 30 + tpoll \/ 30 + 2 * tpoll <= N.of_nat h)%N).
    { apply orb_prop in C2 as [C2|C2]; apply N.leb_le in C2; auto. }
    cbn [within_budget forallb fst snd] in Hbud.
    apply andb_prop in Hbud as [Hb Hbr]. apply andb_prop in Hb as [B1 B2].
    apply Nat.ltb_lt in B1, B2.
    cbn [List.length readData_loop].
    destruct (read_pulse tpoll line fuel t0 (N.of_nat g) (N.of_nat h)
                (N.of_nat (first_gap rest tail))
                (fun l => readData_loop tpoll line fuel (List.length rest)
                            (if l then Z.lor (Z.shiftl sbuf 1 mod 256) 1
                             else Z.lor (Z.shiftl sbuf 1 mod 256) 0)) w)
      as (w1 & E1 & D1 & N1); try assumption; try lia.
    cbv zeta. rewrite E1.
    destruct (IH (t0 + N.of_nat g + N.of_nat h)%N
                 (if (30 + 2 * tpoll <=? N.of_nat h)%N
                  then Z.lor (Z.shiftl sbuf 1 mod 256) 1
                  else Z.lor (Z.shiftl sbuf 1 mod 256) 0) w1 Hclr Hbr Hrest D1 N1)
      as (w2 & E2 & D2 & N2).
    exists w2. split; [|split; [exact D2|]].
    + rewrite E2. unfold shift_in, reads_as. cbn [map fold_left snd].
      destruct (30 + 2 * tpoll <=? N.of_nat h)%N; reflexivity.
    + cbn [train_len fold_right fst snd]. fold (train_len rest). lia.
Qed.

(** X6: [readData] tells the bits by the width of the high pulses
    alone.  On eight pulses of any widths, each at least one poll long
    and either at most [30 + tpoll] or at least [30 + 2 * tpoll]
    microseconds, with low times long enough in between, it returns the
    byte whose bits, most significant first, are 1 for the pulses of at
    least [30 + 2 * tpoll] us and 0 for the others. *)
Theorem readData_reads_pulse_widths tpoll line fuel t0 ps tail w :
  (1 <= tpoll)%N ->
  List.length ps = 8 ->
  clear_pulses tpoll ps tail = true ->
  within_budget fuel ps = true ->
  pulse_train line t0 ps tail = true ->
  direction w = GPIO_MODE_INPUT ->
  (t0 <= now w < t0 + N.of_nat (first_gap ps tail))%N ->
  result (readData tpoll line fuel w) =
  Some (shift_in (map (fun p => reads_as tpoll (snd p)) ps) 0).
Proof.
  intros Htp Hlen Hcl Hbud Htr Hd Hnow.
  destruct (readData_loop_pulses tpoll line fuel tail Htp ps t0 0%Z w
              Hcl Hbud Htr Hd Hnow) as (w' & E & _).
  rewrite Hlen in E. unfold readData. rewrite E. reflexivity.
Qed.

Lemma readData_reads_pulse_widths_witness :
  (1 <= 1)%N /\
  List.length uneven_pulses = 8 /\
  clear_pulses 1 uneven_pulses 50 = true /\
  within_budget 120 uneven_pulses = true /\
  pulse_train uneven_line 0 uneven_pulses 50 = true /\
  direction (listening 7) = GPIO_MODE_INPUT /\
  (0 <= now (listening 7) < 0 + N.of_nat (first_gap uneven_pulses 50))%N /\
  result (readData 1 uneven_line 120 (listening 7)) = Some 85%Z.
Proof.
  assert (H1 : (1 <= 1)%N) by lia.
  assert (H2 : List.length uneven_pulses = 8) by reflexivity.
  assert (H3 : clear_pulses 1 uneven_pulses 50 = true) by (vm_compute; reflexivity).
  assert (H4 : within_budget 120 uneven_pulses = true) by (vm_compute; reflexivity).
  assert (H5 : pulse_train uneven_line 0 uneven_pulses 50 = true)
    by (vm_compute; reflexivity).
  assert (H6 : direction (listening 7) = GPIO_MODE_INPUT) by reflexivity.
  assert (H7 : (0 <= now (listening 7) <
                0 + N.of_nat (first_gap uneven_pulses 50))%N) by (cbn; lia).
  repeat (split; [assumption|]).
  exact (readData_reads_pulse_widths 1 uneven_line 120 0 uneven_pulses 50
           (listening 7) H1 H2 H3 H4 H5 H6 H7).
Defined.

Lemma shift_in_leading_one bits :
  List.length bits = 7 ->
  shift_in (true :: bits) 0 = (128 + shift_in bits 0)%Z.
Proof.
  destruct bits as [|b1 [|b2 [|b3 [|b4 [|b5 [|b6 [|b7 [|b8 rest]]]]]]]];
    try discriminate.
  intros _.
  destruct b1, b2, b3, b4, b5, b6, b7; reflexivity.
Qed.

(** X7: [readData] has no way to tell the sensor's response from a data
    bit.  Entered while the response (a low time followed by a high
    pulse long enough to be read as 1, 80 us on a DHT11) is still to
    come, it returns 128 plus the value of the first seven data bits:
    the response takes the place of the most significant bit. *)
Theorem readData_takes_response_for_a_bit
    tpoll line fuel t0 g0 hr qs tail w :
  (1 <= tpoll)%N ->
  reads_as tpoll hr = true ->
  List.length qs = 7 ->
  clear_pulses tpoll ((g0, hr) :: qs) tail = true ->
  within_budget fuel ((g0, hr) :: qs) = true ->
  pulse_train line t0 ((g0, hr) :: qs) tail = true ->
  direction w = GPIO_MODE_INPUT ->
  (t0 <= now w < t0 + N.of_nat g0)%N ->
  result (readData tpoll line fuel w) =
  Some (128 + shift_in (map (fun p => reads_as tpoll (snd p)) qs) 0)%Z.
Proof.
  intros Htp Hr Hlen Hcl Hbud Htr Hd Hnow.
  destruct (readData_loop_pulses tpoll line fuel tail Htp ((g0, hr) :: qs)
              t0 0%Z w Hcl Hbud Htr Hd Hnow) as (w' & E & _).
  cbn [List.length] in E. rewrite Hlen in E.
  unfold readData. rewrite E. cbn [result map snd]. rewrite Hr.
  rewrite shift_in_leading_one by (now rewrite length_map).
  reflexivity.
Qed.

Lemma readData_takes_response_for_a_bit_witness :
  (1 <= 1)%N /\
  reads_as 1 80 = true /\
  List.length (firstn 7 (byte_train 50)) = 7 /\
  clear_pulses 1 response_pulses 50 = true /\
  within_budget 100 response_pulses = true /\
  pulse_train response_line 0 response_pulses 50 = true /\
  direction (listening 0) = GPIO_MODE_INPUT /\
  (0 <= now (listening 0) < 0 + N.of_nat 80)%N /\
  result (readData 1 response_line 100 (listening 0)) = Some 153%Z.
Proof.
  assert (H1 : (1 <= 1)%N) by lia.
  assert (H2 : reads_as 1 80 = true) by reflexivity.
  assert (H3 : List.length (firstn 7 (byte_train 50)) = 7) by reflexivity.
  assert (H4 : clear_pulses 1 response_pulses 50 = true)
    by (vm_compute; reflexivity).
  assert (H5 : within_budget 100 response_pulses = true)
    by (vm_compute; reflexivity).
  assert (H6 : pulse_train response_line 0 response_pulses 50 = true)
    by (vm_compute; reflexivity).
  assert (H7 : direction (listening 0) = GPIO_MODE_INPUT) by reflexivity.
  assert (H8 : (0 <= now (listening 0) < 0 + N.of_nat 80)%N) by (cbn; lia).
  repeat (split; [assumption|]).
  exact (readData_takes_response_for_a_bit 1 response_line 100 0 80 80
           (firstn 7 (byte_train 50)) 50 (listening 0)
           H1 H2 H3 H4 H5 H6 H7 H8).
Defined.

(** ** Whole frames *)

Lemma steadyb_intro line lvl a len :
  (forall k, k < len -> line (a + N.of_nat k)%N = lvl) ->
  steadyb line lvl a len = true.
Proof.
  intro H. unfold steadyb. apply forallb_forall. intros k Hk.
  apply in_seq in Hk. rewrite H by lia. apply Bool.eqb_reflx.
Qed.

Lemma pulse_train_first_gap line t0 ps tail :
  pulse_train line t0 ps tail = true ->
  steadyb line false t0 (first_gap ps tail) = true.
Proof.
  destruct ps as [|[g h] rest]; cbn [pulse_train first_gap]; intro H;
    [exact H|].
  apply andb_prop in H as [H _]. now apply andb_prop in H.
Qed.

Lemma pulse_train_app line tail ps1 :
  forall t0 ps2,
    pulse_train line t0 (ps1 ++ ps2) tail = true ->
    pulse_train line t0 ps1 (first_gap ps2 tail) = true /\
    pulse_train line (t0 + train_len ps1)%N ps2 tail = true.
Proof.
  induction ps1 as [|[g h] ps1 IH]; intros t0 ps2 H.
  - cbn [app] in H. cbn [pulse_train train_len fold_right].
    rewrite N.add_0_r. split; [now apply pulse_train_first_gap | exact H].
  - cbn [app pulse_train] in *.
    apply andb_prop in H as [H Hr]. rewrite H. cbn [andb].
    apply IH in Hr as [Ha Hb]. split; [exact Ha|].
    cbn [train_len fold_right fst snd]. fold (train_len ps1).
    now replace (t0 + (N.of_nat g + N.of_nat h + train_len ps1))%N
      with (t0 + N.of_nat g + N.of_nat h + train_len ps1)%N by lia.
Qed.

Lemma frame_train_first_gap bytes : first_gap (frame_train bytes) 50 = 50.
Proof. destruct bytes as [|b rest]; reflexivity. Qed.

Lemma clear_bit_train tpoll (bits : list bool) :
  (1 <= tpoll <= 10)%N ->
  clear_pulses tpoll (map (fun b : bool => (50, if b then 70 else 26)) bits) 50
  = true.
Proof.
  intro Htp. induction bits as [|b rest IH]; [reflexivity|].
  cbn [map clear_pulses]. rewrite IH, andb_true_r.
  assert (G : first_gap (map (fun b : bool => (50, if b then 70 else 26)) rest) 50
              = 50) by (destruct rest; reflexivity).
  rewrite G.
  repeat (apply andb_true_intro; split);
    try (apply N.leb_le; destruct b; lia).
  destruct b.
  - apply orb_true_intro. right. apply N.leb_le. lia.
  - apply orb_true_intro. left. apply N.leb_le. lia.
Qed.

Lemma budget_bit_train fuel (bits : list bool) :
  70 < fuel ->
  within_budget fuel (map (fun b : bool => (50, if b then 70 else 26)) bits)
  = true.
Proof.
  intro Hf. unfold within_budget. apply forallb_forall.
  intros p Hp. apply in_map_iff in Hp as (b & <- & _). cbn [fst snd].
  apply andb_true_intro. split; apply Nat.ltb_lt; destruct b; lia.
Qed.

Lemma reads_bit_train tpoll (bits : list bool) :
  (1 <= tpoll <= 10)%N ->
  map (fun p => reads_as tpoll (snd p))
      (map (fun b : bool => (50, if b then 70 else 26)) bits) = bits.
Proof.
  intro Htp. rewrite map_map. rewrite <- (map_id bits) at 2.
  apply map_ext. intros b. cbn [snd]. unfold reads_as.
  destruct b.
  - apply N.leb_le. lia.
  - apply N.leb_gt. lia.
Qed.

(** The bytes of a frame come out as they went in. *)
Lemma readBytes_frame tpoll line fuel :
  (1 <= tpoll <= 10)%N ->
  70 < fuel ->
  forall bytes t0 w,
    Forall (fun b => 0 <= b < 256)%Z bytes ->
    pulse_train line t0 (frame_train bytes) 50 = true ->
    direction w = GPIO_MODE_INPUT ->
    (t0 <= now w < t0 + 50)%N ->
    exists w',
      readBytes tpoll line fuel (List.length bytes) w = Returned bytes w' /\
      direction w' = GPIO_MODE_INPUT.
Proof.
  intros Htp Hfuel.
  induction bytes as [|b rest IH]; intros t0 w Hr Htr Hd Hnow.
  - exists w. split; [reflexivity | exact Hd].
  - inversion Hr as [|? ? Hb Hrest]; subst.
    change (frame_train (b :: rest)) with (byte_train b ++ frame_train rest) in Htr.
    apply pulse_train_app in Htr as [Hbyte Hnext].
    rewrite frame_train_first_gap in Hbyte.
    assert (Htp1 : (1 <= tpoll)%N) by lia.
    destruct (readData_loop_pulses tpoll line fuel 50 Htp1 (byte_train b) t0
                0%Z w (clear_bit_train tpoll _ Htp)
                (budget_bit_train fuel _ Hfuel) Hbyte Hd)
      as (w1 & E1 & D1 & N1).
    { change (first_gap (byte_train b) 50) with 50. exact Hnow. }
    change (List.length (byte_train b)) with 8 in E1.
    unfold byte_train in E1 at 1. rewrite reads_bit_train in E1 by exact Htp.
    rewrite shift_in_bits_of_byte in E1 by exact Hb.
    destruct (IH (t0 + train_len (byte_train b))%N w1 Hrest Hnext D1)
      as (w2 & E2 & D2).
    { change (N.of_nat 50) with 50%N in N1. exact N1. }
    exists w2. split; [|exact D2].
    cbn [List.length readBytes]. unfold readData.
    rewrite (bind_returned _ _ _ _ _ E1), (bind_returned _ _ _ _ _ E2).
    reflexivity.
Qed.

(** X8: the decoder undoes the sensor's encoding.  On a line that
    carries five bytes as a DHT11 sends them, [getData] entered during
    the first low gap returns the third byte as temperature, the first
    as humidity, and status 0 exactly when the fifth equals the sum of
    the other four. *)
Theorem getData_decodes_frame tpoll line fuel temp t0 w b0 b1 b2 b3 b4 :
  (1 <= tpoll <= 10)%N ->
  70 < fuel ->
  Forall (fun b => 0 <= b < 256)%Z [b0; b1; b2; b3; b4] ->
  pulse_train line t0 (frame_train [b0; b1; b2; b3; b4]) 50 = true ->
  direction w = GPIO_MODE_INPUT ->
  (t0 <= now w < t0 + 50)%N ->
  result (getData tpoll line fuel temp w) =
  Some (mkData b2 b0 (if (b4 =? b0 + b1 + b2 + b3)%Z then 0 else 1)%Z).
Proof.
  intros Htp Hfuel Hr Htr Hd Hnow.
  destruct (readBytes_frame tpoll line fuel Htp Hfuel [b0; b1; b2; b3; b4]
              t0 w Hr Htr Hd Hnow) as (w' & E & _).
  cbn [List.length] in E.
  rewrite (getData_of_readBytes _ _ _ temp _ _ _ _ _ _ _ E).
  cbn [result]. now rewrite getData_store_fields.
Qed.

Lemma getData_decodes_frame_witness :
  (1 <= 3 <= 10)%N /\
  70 < 100 /\
  Forall (fun b => 0 <= b < 256)%Z [50; 0; 21; 0; 71]%Z /\
  pulse_train good_frame 0 (frame_train [50; 0; 21; 0; 71]%Z) 50 = true /\
  direction (listening 12) = GPIO_MODE_INPUT /\
  (0 <= now (listening 12) < 0 + 50)%N /\
  result (getData 3 good_frame 100 (mkData 7 7 7) (listening 12)) =
  Some (mkData 21 50 0).
Proof.
  assert (H1 : (1 <= 3 <= 10)%N) by lia.
  assert (H2 : 70 < 100) by lia.
  assert (H3 : Forall (fun b => 0 <= b < 256)%Z [50; 0; 21; 0; 71]%Z)
    by (repeat constructor; lia).
  assert (H4 : pulse_train good_frame 0 (frame_train [50; 0; 21; 0; 71]%Z) 50
               = true) by (vm_compute; reflexivity).
  assert (H5 : direction (listening 12) = GPIO_MODE_INPUT) by reflexivity.
  assert (H6 : (0 <= now (listening 12) < 0 + 50)%N) by (cbn; lia).
  repeat (split; [assumption|]).
  exact (getData_decodes_frame 3 good_frame 100 (mkData 7 7 7) 0 (listening 12)
           50 0 21 0 71 H1 H2 H3 H4 H5 H6).
Defined.

(** ** A request answered by the sensor *)

Lemma wave_train idle more tail ps :
  forall line t0,
    (forall t, (t0 <= t)%N ->
       line t = wave (train_segments ps ++ (N.of_nat tail, false) :: more)
                     idle (t - t0)) ->
    pulse_train line t0 ps tail = true.
Proof.
  induction ps as [|[g h] rest IH]; intros line t0 H.
  - cbn [pulse_train]. apply steadyb_intro. intros k Hk.
    rewrite H by lia. cbn [train_segments flat_map app wave].
    destruct (N.ltb_spec (t0 + N.of_nat k - t0) (N.of_nat tail));
      [reflexivity | lia].
  - cbn [pulse_train].
    cbn [train_segments flat_map app fst snd] in H.
    fold (train_segments rest) in H.
    apply andb_true_intro. split; [apply andb_true_intro; split|].
    + apply steadyb_intro. intros k Hk. rewrite H by lia. cbn [wave].
      destruct (N.ltb_spec (t0 + N.of_nat k - t0) (N.of_nat g));
        [reflexivity | lia].
    + apply steadyb_intro. intros k Hk. rewrite H by lia. cbn [wave].
      destruct (N.ltb_spec (t0 + N.of_nat g + N.of_nat k - t0) (N.of_nat g));
        [lia|].
      destruct (N.ltb_spec (t0 + N.of_nat g + N.of_nat k - t0 - N.of_nat g)
                           (N.of_nat h)); [reflexivity | lia].
    + apply IH. intros t Ht. rewrite H by lia. cbn [wave].
      destruct (N.ltb_spec (t - t0) (N.of_nat g)); [lia|].
      destruct (N.ltb_spec (t - t0 - N.of_nat g) (N.of_nat h)); [lia|].
      f_equal. lia.
Qed.

Lemma train_segments_bits (bits : list bool) :
  train_segments (map (fun b : bool => (50, if b then 70 else 26)) bits) =
  flat_map bit_pulses bits.
Proof.
  induction bits as [|b rest IH]; [reflexivity|].
  cbn [map train_segments flat_map fst snd] in *.
  fold (train_segments (map (fun b : bool => (50, if b then 70 else 26)) rest)).
  rewrite IH. destruct b; reflexivity.
Qed.

Lemma train_segments_app ps1 ps2 :
  train_segments (ps1 ++ ps2) = train_segments ps1 ++ train_segments ps2.
Proof. unfold train_segments. apply flat_map_app. Qed.

Lemma train_segments_frame bytes :
  train_segments (frame_train bytes) = flat_map byte_pulses bytes.
Proof.
  induction bytes as [|b rest IH]; [reflexivity|].
  change (frame_train (b :: rest)) with (byte_train b ++ frame_train rest).
  rewrite train_segments_app, IH. unfold byte_train.
  rewrite train_segments_bits. reflexivity.
Qed.

(** From the end of its response on, the answer of the sensor is the
    frame. *)
Lemma sensor_answer_frame bytes t :
  (19180 <= t)%N ->
  sensor_answer bytes t = wave (frame_pulses bytes) true (t - 19180).
Proof.
  intro Ht. unfold sensor_answer. cbn [wave].
  destruct (N.ltb_spec t 19020); [lia|].
  destruct (N.ltb_spec (t - 19020) 80); [lia|].
  destruct (N.ltb_spec (t - 19020 - 80) 80); [lia|].
  f_equal. lia.
Qed.

Lemma sensor_answer_train bytes :
  pulse_train (sensor_answer bytes) 19180 (frame_train bytes) 50 = true.
Proof.
  apply wave_train with (idle := true) (more := []).
  intros t Ht. rewrite sensor_answer_frame by exact Ht.
  unfold frame_pulses. now rewrite train_segments_frame.
Qed.

Lemma sensor_answer_response bytes :
  steady (sensor_answer bytes) false 19030 19100 /\
  steady (sensor_answer bytes) true 19100 19180 /\
  steady (sensor_answer bytes) false 19180 19230.
Proof.
  unfold steady, sensor_answer. repeat split; intros t Ht; cbn [wave].
  - destruct (N.ltb_spec t 19020); [lia|].
    destruct (N.ltb_spec (t - 19020) 80); [reflexivity | lia].
  - destruct (N.ltb_spec t 19020); [lia|].
    destruct (N.ltb_spec (t - 19020) 80); [lia|].
    destruct (N.ltb_spec (t - 19020 - 80) 80); [reflexivity | lia].
  - pose proof (pulse_train_gap _ _ _ _ (sensor_answer_train bytes)) as G.
    rewrite frame_train_first_gap in G.
    change (wave ((19020, true) :: (80, false) :: (80, true) :: frame_pulses bytes)%N true t)
      with (sensor_answer bytes t).
    apply G. lia.
Qed.

(** X9: a request made at time 0 and answered by a sensor (response
    20 us after the release, then five bytes) returns the page with the
    third byte as temperature and the first as humidity, and the console
    line that goes with the status, for every five bytes and every poll
    cost from 1 to 10 us. *)
Theorem get_handler_answers_frame tpoll fuel currentData w b0 b1 b2 b3 b4 :
  (1 <= tpoll <= 10)%N ->
  150 < fuel ->
  Forall (fun b => 0 <= b < 256)%Z [b0; b1; b2; b3; b4] ->
  now w = 0%N ->
  result (get_handler tpoll (sensor_answer [b0; b1; b2; b3; b4]) fuel
            currentData w) =
  Some (mkHandled
          (console_line
             (mkData b2 b0 (if (b4 =? b0 + b1 + b2 + b3)%Z then 0 else 1)%Z))
          (htmlPage b2 b0) ESP_OK).
Proof.
  intros Htp Hfuel Hr Hnow.
  set (line := sensor_answer [b0; b1; b2; b3; b4]).
  destruct (sensor_answer_response [b0; b1; b2; b3; b4]) as (S1 & S2 & S3).
  destruct (startSignal_response tpoll line fuel (pad_selected w) 19100 19180)
    as (w1 & E1 & D1 & N1);
    cbn [pad_selected now]; rewrite ?Hnow; try assumption; try lia.
  { intros t Ht. apply S3. lia. }
  cbn [pad_selected now] in N1.
  destruct (readBytes_frame tpoll line fuel Htp ltac:(lia) [b0; b1; b2; b3; b4]
              19180%N w1 Hr (sensor_answer_train _) D1) as (w2 & E2 & _);
    [lia|].
  cbn [List.length] in E2.
  unfold get_handler. unfold bind at 1. cbn [gpio_pad_select_gpio].
  change (mkWorld (now w) (direction w) (driven w) (log PadSelect w))
    with (pad_selected w).
  rewrite (bind_returned _ _ _ _ _ E1).
  rewrite (bind_returned _ _ _ _ _
             (getData_of_readBytes _ _ _ currentData _ _ _ _ _ _ _ E2)).
  cbn [ret result]. rewrite getData_store_fields. reflexivity.
Qed.

Lemma get_handler_answers_frame_witness :
  (1 <= 1 <= 10)%N /\ 150 < 200 /\
  Forall (fun b => 0 <= b < 256)%Z [200; 0; 100; 0; 44]%Z /\
  now power_on = 0%N /\
  result (get_handler 1 (sensor_answer [200; 0; 100; 0; 44]%Z) 200
            (mkData 7 7 7) power_on) =
  Some (mkHandled ("DHT11 Error!" ++ crlf) (htmlPage 100 200) ESP_OK).
Proof.
  assert (H1 : (1 <= 1 <= 10)%N) by lia.
  assert (H2 : 150 < 200) by lia.
  assert (H3 : Forall (fun b => 0 <= b < 256)%Z [200; 0; 100; 0; 44]%Z)
    by (repeat constructor; lia).
  assert (H4 : now power_on = 0%N) by reflexivity.
  repeat (split; [assumption|]).
  exact (get_handler_answers_frame 1 200 (mkData 7 7 7) power_on
           200 0 100 0 44 H1 H2 H3 H4).
Defined.

(** ** The retry counter *)

Lemma count_app {A} (P : A -> bool) l1 l2 :
  count P (l1 ++ l2) = count P l1 + count P l2.
Proof. unfold count. now rewrite filter_app, length_app. Qed.

Lemma count_cons {A} (P : A -> bool) a l :
  count P (a :: l) = (if P a then 1 else 0) + count P l.
Proof. unfold count. cbn [filter]. destruct (P a); reflexivity. Qed.

Lemma handle_events_bounds START DISC GOTIP CB FB es :
  forall s,
    (0 <= s <= 20)%Z ->
    (0 <= fst (handle_events START DISC GOTIP CB FB s es) <= 20)%Z /\
    count is_connect (snd (handle_events START DISC GOTIP CB FB s es)) <=
      count (is_sta_start START) es + Z.to_nat (20 - s) +
      20 * count (is_got_ip GOTIP) es.
Proof.
  induction es as [|e rest IH]; intros s Hs.
  - cbn [handle_events fst snd]. split; [lia|]. unfold count. cbn. lia.
  - cbn [handle_events]. unfold event_handler, EXAMPLE_ESP_MAXIMUM_RETRY.
    rewrite !(count_cons _ e).
    destruct (is_sta_start START e) eqn:E1;
      [|destruct (is_sta_disconnected DISC e) eqn:E2;
        [destruct (Z.ltb_spec s 20)|]];
      destruct (is_got_ip GOTIP e) eqn:E3;
      match goal with
      | |- context [handle_events _ _ _ _ _ ?s' rest] =>
          let Hb := fresh "Hb" in
          let Hc := fresh "Hc" in
          destruct (IH s' ltac:(lia)) as (Hb & Hc);
          destruct (handle_events START DISC GOTIP CB FB s' rest) as [s2 a2];
          cbn [fst snd] in *; split; [exact Hb|];
          rewrite ?count_app; unfold count in *;
          cbn [filter app is_connect List.length] in *; lia
      end.
Qed.

(** X10: whatever events arrive, [s_retry_num] stays between 0 and
    [EXAMPLE_ESP_MAXIMUM_RETRY] once it is there (it starts at 0), so
    its increment never overflows. *)
Theorem retry_count_stays_in_range START DISC GOTIP CB FB es s :
  (0 <= s <= EXAMPLE_ESP_MAXIMUM_RETRY)%Z ->
  (0 <= fst (handle_events START DISC GOTIP CB FB s es)
     <= EXAMPLE_ESP_MAXIMUM_RETRY)%Z.
Proof.
  unfold EXAMPLE_ESP_MAXIMUM_RETRY. intro Hs.
  apply handle_events_bounds. exact Hs.
Qed.

Lemma retry_count_stays_in_range_witness :
  (0 <= 0 <= EXAMPLE_ESP_MAXIMUM_RETRY)%Z /\
  (0 <= fst (handle_events 2 5 0 1 2 0 lost_ap) <= EXAMPLE_ESP_MAXIMUM_RETRY)%Z.
Proof.
  assert (H : (0 <= 0 <= EXAMPLE_ESP_MAXIMUM_RETRY)%Z)
    by (unfold EXAMPLE_ESP_MAXIMUM_RETRY; lia).
  split; [exact H|].
  exact (retry_count_stays_in_range 2 5 0 1 2 lost_ap 0 H).
Defined.

(** X11: the handler calls [esp_wifi_connect] at most once per start
    event, plus at most twenty times after the start and after each
    address obtained: a lost access point is retried twenty times, not
    for ever. *)
Theorem connect_attempts_are_bounded START DISC GOTIP CB FB es :
  count is_connect (snd (handle_events START DISC GOTIP CB FB 0 es)) <=
  count (is_sta_start START) es + 20 * (1 + count (is_got_ip GOTIP) es).
Proof.
  destruct (handle_events_bounds START DISC GOTIP CB FB es 0%Z ltac:(lia))
    as (_ & H).
  change (Z.to_nat (20 - 0)) with 20 in H. lia.
Qed.

Lemma disconnected_not_start START DISC e :
  START <> DISC ->
  is_sta_disconnected DISC e = true -> is_sta_start START e = false.
Proof.
  unfold is_sta_disconnected, is_sta_start. intros Hne H.
  apply andb_prop in H as [Hb Hi]. apply Z.eqb_eq in Hi.
  rewrite Hb. cbn [andb]. apply Z.eqb_neq. congruence.
Qed.

Lemma handle_disconnects START DISC GOTIP CB FB es :
  START <> DISC ->
  forallb (is_sta_disconnected DISC) es = true ->
  forall s,
    (0 <= s <= 20)%Z ->
    fst (handle_events START DISC GOTIP CB FB s es) =
      Z.min (s + Z.of_nat (List.length es)) 20 /\
    count is_connect (snd (handle_events START DISC GOTIP CB FB s es)) =
      Nat.min (List.length es) (Z.to_nat (20 - s)) /\
    count (is_set_bits FB) (snd (handle_events START DISC GOTIP CB FB s es)) =
      List.length es - Z.to_nat (20 - s).
Proof.
  intros Hne. induction es as [|e rest IH]; intros Hall s Hs.
  - cbn [handle_events fst snd List.length]. unfold count.
    cbn [filter List.length]. lia.
  - cbn [forallb] in Hall. apply andb_prop in Hall as [He Hrest].
    cbn [handle_events List.length]. unfold event_handler, EXAMPLE_ESP_MAXIMUM_RETRY.
    rewrite (disconnected_not_start START DISC e Hne He), He.
    destruct (Z.ltb_spec s 20).
    + destruct (IH Hrest (s + 1)%Z ltac:(lia)) as (Hf & Hc & Hb).
      destruct (handle_events START DISC GOTIP CB FB (s + 1) rest) as [s2 a2].
      cbn [fst snd] in *. rewrite !count_app, Hc, Hb.
      unfold count.
      cbn [filter app is_connect is_set_bits List.length]. lia.
    + destruct (IH Hrest s Hs) as (Hf & Hc & Hb).
      destruct (handle_events START DISC GOTIP CB FB s rest) as [s2 a2].
      cbn [fst snd] in *. rewrite !count_app, Hc, Hb.
      unfold count.
      cbn [filter app is_connect is_set_bits List.length].
      rewrite Z.eqb_refl. cbn [List.length]. lia.
Qed.

(** X12: when the station is disconnected [n] times in a row, starting
    with the counter at 0, the handler reconnects the first twenty
    times and signals [WIFI_FAIL_BIT] at each later one: the failure is
    reported at the twenty-first disconnection and not before. *)
Theorem gives_up_after_twenty_retries START DISC GOTIP CB FB es :
  START <> DISC ->
  forallb (is_sta_disconnected DISC) es = true ->
  fst (handle_events START DISC GOTIP CB FB 0 es) =
    Z.min (Z.of_nat (List.length es)) 20 /\
  count is_connect (snd (handle_events START DISC GOTIP CB FB 0 es)) =
    Nat.min (List.length es) 20 /\
  count (is_set_bits FB) (snd (handle_events START DISC GOTIP CB FB 0 es)) =
    List.length es - 20.
Proof.
  intros Hne Hall.
  exact (handle_disconnects START DISC GOTIP CB FB es Hne Hall 0%Z ltac:(lia)).
Qed.

Lemma gives_up_after_twenty_retries_witness :
  (2 <> 5)%Z /\
  forallb (is_sta_disconnected 5) lost_ap = true /\
  fst (handle_events 2 5 0 1 2 0 lost_ap) = 20%Z /\
  count is_connect (snd (handle_events 2 5 0 1 2 0 lost_ap)) = 20 /\
  count (is_set_bits 2) (snd (handle_events 2 5 0 1 2 0 lost_ap)) = 3.
Proof.
  assert (H1 : (2 <> 5)%Z) by discriminate.
  assert (H2 : forallb (is_sta_disconnected 5) lost_ap = true) by reflexivity.
  split; [exact H1|]. split; [exact H2|].
  exact (gives_up_after_twenty_retries 2 5 0 1 2 lost_ap H1 H2).
Defined.

(** ** The handshake and the acknowledgment *)





(** On that answer the request takes the acknowledgment for the first
    bit: the frame [50 0 21 0 71] comes out as humidity 153 and
    temperature 10, with the error status. *)
Example get_handler_late_answer_misread :
  result (get_handler 1 late_answer 200 (mkData 7 7 7) power_on) =
  Some (mkHandled ("DHT11 Error!" ++ crlf) (htmlPage 10 153) ESP_OK).
Proof. vm_compute. reflexivity. Qed.

(** C9, at the failing input.  The frame [200 0 100 0 44] has a valid
    checksum, 44 = (200+0+100+0) mod 256; the request answered with it
    shows the numbers on the page but prints the error line on the
    console, because [getData] compared the checksum with the sum 300. *)
Theorem get_handler_valid_frame_reported_as_error :
  (44 = (200 + 0 + 100 + 0) mod 256)%Z /\
  result (get_handler 1 (sensor_answer [200; 0; 100; 0; 44]%Z) 200
            (mkData 7 7 7) power_on) =
  Some (mkHandled ("DHT11 Error!" ++ crlf)
"<<!DOCTYPE html><html>
<head>
<style>
html {font-family: sans-serif; text-align: center;}
</style>
</head>
<body>
<div>
<h1>ESP32 IoT Server</h1>
</div>
<div>
<h3>Temperature and Humidity Monitor</h3>
<p>DHT11 Temperature Reading: 100&deg;C</p>
<p>DHT11 Humidity Reading: 200%</p>
</div>
</body>
</html> >" 0%Z).
Proof. split; vm_compute; reflexivity. Qed.
